(** * pygasus: a shallow embedding of [src/pygasus.py]

    The note-stream decoder ([load_pegasus_notes], [PegasusNote.__init__])
    and the device session ([PegasusDevice._dev_read], [download_data],
    [_get_version]) are translated function by function.  Python bytes are
    [list byte]; an index [data[i]] is [index data i] and raises
    [IndexError] out of range; a slice [data[a:b]] is [slice data a b];
    the dict [packets] of [download_data] is a [gmap Z (list byte)].  *)

From Stdlib Require Import Strings.Byte ZArith Ascii String.
From stdpp Require Import base gmap list sets.

Local Open Scope Z_scope.

(** ** Python exceptions and results *)

Inductive exn :=
  | IndexError | AssertionError | StructError | KeyError | TypeError
  | ValueError.

(** [Diverge]: the computation does not return (the loop keeps running,
    or a blocking read never completes). *)
Inductive result (A : Type) :=
  | Ok (a : A)
  | Raise (e : exn)
  | Diverge.
Arguments Ok {A} a.
Arguments Raise {A} e.
Arguments Diverge {A}.

#[global] Instance result_ret : MRet result := fun A a => Ok a.
#[global] Instance result_bind : MBind result :=
  fun A B f m => match m with
                 | Ok a => f a
                 | Raise e => Raise e
                 | Diverge => Diverge
                 end.

Definition py_assert (b : bool) : result unit :=
  if b then Ok tt else Raise AssertionError.

#[global] Instance byte_eq_dec : EqDecision byte := Byte.byte_eq_dec.

(** ** Bytes *)

Definition byte_val (b : byte) : Z := Z.of_N (Byte.to_N b).

(** [data[i]] on a bytes object. *)
Definition index (data : list byte) (i : nat) : result Z :=
  match data !! i with
  | Some b => Ok (byte_val b)
  | None => Raise IndexError
  end.

(** [data[a:b]] for [0 <= a]: empty when [b <= a], clipped at the end. *)
Definition slice (data : list byte) (a b : nat) : list byte :=
  take (b - a)%nat (drop a data).

(** ** Note records: [PegasusNote] *)

(** The pen-lift sentinel [b'\x00\x00\x00\x80']. *)
Definition sentinel : list byte := [x00; x00; x00; x80].

(** Two's complement reading of a 16-bit value (format character [h]). *)
Definition s16 (v : Z) : Z := if v <? 32768 then v else v - 65536.

(** [struct.Struct('<hh').unpack(g)]: needs exactly 4 bytes. *)
Definition unpack_hh (g : list byte) : result (Z * Z) :=
  match g with
  | [b0; b1; b2; b3] =>
      Ok (s16 (byte_val b0 + Z.shiftl (byte_val b1) 8),
          s16 (byte_val b2 + Z.shiftl (byte_val b3) 8))
  | _ => Raise StructError
  end.

Abbreviation stroke := (list (Z * Z)).

(** The header locals of [PegasusNote.__init__] (lines 21-34). *)
Record note_header := {
  note_contains_content : bool;
  note_closed : bool;
  note_closed_by_user : bool;
  note_side_left : bool;
  note_side_right : bool;
  note_already_uploaded : bool;
  pen_bat_low : bool;
  hdr_note_id : Z;
  hdr_note_count : Z;
  hdr_timestamp : Z
}.

Definition flag_set (flags mask : Z) : bool := negb (Z.land flags mask =? 0).

Definition decode_header (data : list byte) : result note_header :=
  flags ← index data 3;
  _ ← py_assert (flag_set flags 16);
  note_id ← index data 4;
  note_count ← index data 5;
  t0 ← index data 6; t1 ← index data 7; t2 ← index data 8; t3 ← index data 9;
  (* [data[offset+10]] is not read: the protocol-id assertion is commented out *)
  _ ← index data 11; _ ← index data 12; _ ← index data 13;
  mret {| note_contains_content := flag_set flags 128;
          note_closed := negb (flag_set flags 64);
          note_closed_by_user := flag_set flags 32;
          note_side_left := flag_set flags 8;
          note_side_right := flag_set flags 4;
          note_already_uploaded := negb (flag_set flags 2);
          pen_bat_low := negb (flag_set flags 1);
          hdr_note_id := note_id;
          hdr_note_count := note_count;
          hdr_timestamp := t0 + Z.shiftl t1 8 + Z.shiftl t2 16 + Z.shiftl t3 24 |}.

(** The stroke loop (lines 37-46), on the suffix [data[offset:]]: each
    round unpacks [data[offset:offset+4]] (a struct error when fewer than
    4 bytes remain), then either closes the stroke at a sentinel or
    appends the point, and advances [offset] by 4. *)
Fixpoint stroke_loop (rest : list byte) (strokes : list stroke) (cur : stroke)
    : result (list stroke) :=
  match rest with
  | [] => Ok strokes
  | b0 :: b1 :: b2 :: b3 :: rest' =>
      xy ← unpack_hh [b0; b1; b2; b3];
      if decide ([b0; b1; b2; b3] = sentinel)
      then stroke_loop rest' (strokes ++ [cur]) []
      else stroke_loop rest' strokes (cur ++ [xy])
  | _ => _ ← unpack_hh rest; Raise StructError
  end.

Record PegasusNote := {
  _hash : Z;
  _strokes : list stroke;
  _note_id : Z
}.

Section Decoder.

(** The digest [hashlib.md5(.).hexdigest()], as the 128-bit number its
    hex text spells. *)
Variable md5 : list byte -> Z.

Definition PegasusNote_init (data : list byte) : result PegasusNote :=
  h ← decode_header data;
  strokes ← stroke_loop (drop 14 data) [] [];
  mret {| _hash := md5 (drop 14 data);
          _strokes := strokes;
          _note_id := hdr_note_id h |}.

(** The 24-bit little-endian pointer at [offset]. *)
Definition read_pointer (data : list byte) (offset : nat) : result nat :=
  b0 ← index data offset;
  b1 ← index data (offset + 1);
  b2 ← index data (offset + 2);
  mret (Z.to_nat (b0 + Z.shiftl b1 8 + Z.shiftl b2 16)).

(** The [while pointer != 0] loop of [load_pegasus_notes], run for at most
    [fuel] rounds ([Diverge] when the rounds run out). *)
Fixpoint load_loop (fuel : nat) (data : list byte) (offset pointer : nat)
    (notes : list PegasusNote) : result (list PegasusNote) :=
  match fuel with
  | O => Diverge
  | S fuel' =>
      if decide (pointer = 0%nat) then Ok notes
      else
        n ← PegasusNote_init (slice data offset pointer);
        pointer' ← read_pointer data pointer;
        load_loop fuel' data pointer pointer' (notes ++ [n])
  end.

Definition load_pegasus_notes_fuel (fuel : nat) (data : list byte)
    : result (list PegasusNote) :=
  pointer ← read_pointer data 0;
  load_loop fuel data 0 pointer [].

(** [load_pegasus_notes data]: [length data + 1] rounds are always enough
    (theorem [C1_load_terminates]). *)
Definition load_pegasus_notes (data : list byte) : result (list PegasusNote) :=
  load_pegasus_notes_fuel (S (length data)) data.

End Decoder.

(** ** Raw input: [PegasusDevice._dev_read] *)

(** One round of the read loop: the elapsed time [time.time() - ts] seen by
    the loop condition, and what [self._f.read(64-len(reply))] then does:
    returns some bytes, returns [None], or is interrupted by the alarm. *)
Inductive read_event :=
  | RData (d : list byte)
  | RNone
  | RIntr.

Abbreviation trace := (list (Z * read_event)).

(** The [while] loop of lines 229-236.  A read returning [None] sleeps and
    then runs [reply += d] with [d = None], a [TypeError].  A trace that
    ends while the loop still wants to read is a read that never returns. *)
Fixpoint dev_read_loop (timeout : Z) (reply : list byte) (tr : trace)
    : result (list byte) :=
  if decide (length reply < 64)%nat then
    match tr with
    | [] => Diverge
    | (elapsed, ev) :: tr' =>
        if decide (elapsed <= timeout) then
          match ev with
          | RIntr => Ok reply
          | RNone => Raise TypeError
          | RData d => dev_read_loop timeout (reply ++ d) tr'
          end
        else Ok reply
    end
  else Ok reply.

(** [_dev_read(timeout)] on one trace, after the loop (lines 238-242). *)
Definition dev_read_result (timeout : Z) (tr : trace)
    : result (option (list byte)) :=
  reply ← dev_read_loop timeout [] tr;
  if decide (length reply = 0%nat) then Ok None
  else _ ← py_assert (Nat.eqb (length reply) 64); Ok (Some reply).

(** ** The device session *)

(** The device handle: the frames written so far, and one trace per
    [_dev_read] call still to come. *)
Record device := {
  dev_written : list (list byte);
  dev_traces : list trace
}.

Definition dev (A : Type) : Type := device -> result (A * device).

#[global] Instance dev_ret : MRet dev := fun A a s => Ok (a, s).
#[global] Instance dev_bind : MBind dev :=
  fun A B f m s => match m s with
                   | Ok (a, s') => f a s'
                   | Raise e => Raise e
                   | Diverge => Diverge
                   end.

Definition lift {A} (r : result A) : dev A :=
  fun s => a ← r; Ok (a, s).

Definition get_state : dev device := fun s => Ok (s, s).

(** [_dev_write_command]: [bytes([0x02, len(command)] + command + [0]*(6-len))]. *)
Definition _dev_write_command (command : list byte) : dev unit :=
  fun s =>
    match Byte.of_nat (length command) with
    | None => Raise ValueError
    | Some len =>
        Ok (tt, {| dev_written := dev_written s
                     ++ [[x02; len] ++ command ++ replicate (6 - length command) x00];
                   dev_traces := dev_traces s |})
    end.

(** [_dev_read()]: consumes the next trace; with none left the device
    stays silent and the read blocks. *)
Definition _dev_read (timeout : Z) : dev (option (list byte)) :=
  fun s =>
    match dev_traces s with
    | [] => Diverge
    | tr :: trs =>
        r ← dev_read_result timeout tr;
        Ok (r, {| dev_written := dev_written s; dev_traces := trs |})
    end.

Definition default_timeout : Z := 2.

(** [reply[i]] where [reply] may be [None]. *)
Definition reply_index (reply : option (list byte)) (i : nat) : result Z :=
  match reply with
  | None => Raise TypeError
  | Some r => index r i
  end.

Definition check_byte (reply : option (list byte)) (i : nat) (v : Z) : result unit :=
  b ← reply_index reply i; py_assert (b =? v).

(** Lines 150-158: the envelope of the [0xb5] reply and the packet count. *)
Definition download_header (reply : option (list byte)) : result Z :=
  _ ← check_byte reply 0 0xaa; _ ← check_byte reply 1 0xaa;
  _ ← check_byte reply 2 0xaa; _ ← check_byte reply 3 0xaa;
  _ ← check_byte reply 4 0xaa;
  _ ← check_byte reply 7 0x55; _ ← check_byte reply 8 0x55;
  b5 ← reply_index reply 5; b6 ← reply_index reply 6;
  mret (Z.shiftl b5 8 + b6).

Definition packet_id (r : list byte) : result Z :=
  b0 ← index r 0; b1 ← index r 1; mret (Z.shiftl b0 8 + b1).

(** The [while len(packets) < number_of_packets] loop (lines 162-167), run
    for at most [fuel] rounds. *)
Fixpoint download_loop (fuel : nat) (number_of_packets : Z)
    (packets : gmap Z (list byte)) : dev (gmap Z (list byte)) :=
  match fuel with
  | O => fun _ => Diverge
  | S fuel' =>
      if decide (Z.of_nat (size packets) < number_of_packets) then
        reply ← _dev_read default_timeout;
        match reply with
        | None => mret packets
        | Some r =>
            pid ← lift (packet_id r);
            download_loop fuel' number_of_packets (<[pid := drop 2 r]> packets)
        end
      else mret packets
  end.

(** [for i in range(n): data.append(packets[i+1])]. *)
Fixpoint collect (packets : gmap Z (list byte)) (ids : list nat)
    : result (list (list byte)) :=
  match ids with
  | [] => Ok []
  | i :: ids' =>
      match packets !! (Z.of_nat i + 1) with
      | None => Raise KeyError
      | Some p => rest ← collect packets ids'; Ok (p :: rest)
      end
  end.

(** [PegasusDevice.download_data].  Every round of the packet loop either
    stops or consumes one trace, and with no trace left the read blocks;
    so [S (length (dev_traces s))] rounds never cut short a run of the
    source. *)
Definition download_data : dev (list byte) :=
  _ ← _dev_write_command [xb5];
  reply ← _dev_read default_timeout;
  number_of_packets ← lift (download_header reply);
  _ ← _dev_write_command [xb6];
  s ← get_state;
  packets ← download_loop (S (length (dev_traces s))) number_of_packets ∅;
  _ ← lift (py_assert (Z.of_nat (size packets) =? number_of_packets));
  _ ← _dev_write_command [xb6];
  data ← lift (collect packets (seq 0 (Z.to_nat number_of_packets)));
  mret (concat data).

(** [_version_struct = struct.Struct('>BBBHHHBB')]: 11 bytes, big-endian. *)
Record version_struct := {
  vs_b0 : Z; vs_b1 : Z; vs_product_id : Z; vs_version1 : Z;
  vs_version2 : Z; vs_pad_version : Z; vs_b9 : Z; vs_mode : Z
}.

Definition be16 (hi lo : Z) : Z := Z.shiftl hi 8 + lo.

(** [_version_struct.unpack_from(message)]. *)
Definition version_unpack_from (message : option (list byte)) : result version_struct :=
  match message with
  | None => Raise TypeError
  | Some m =>
      if decide (length m < 11)%nat then Raise StructError
      else
        let at_ i := byte_val (nth i m x00) in
        Ok {| vs_b0 := at_ 0%nat; vs_b1 := at_ 1%nat; vs_product_id := at_ 2%nat;
              vs_version1 := be16 (at_ 3%nat) (at_ 4%nat);
              vs_version2 := be16 (at_ 5%nat) (at_ 6%nat);
              vs_pad_version := be16 (at_ 7%nat) (at_ 8%nat);
              vs_b9 := at_ 9%nat; vs_mode := at_ 10%nat |}
  end.

(** The attributes [_get_version] stores. *)
Record version_info := {
  _product_id : Z; _version : Z; _pad_version : Z; _mode : Z
}.

Definition _get_version : dev version_info :=
  _ ← _dev_write_command [x95; x95];
  message ← _dev_read default_timeout;
  v ← lift (version_unpack_from message);
  _ ← lift (py_assert (vs_b0 v =? 0x80));
  _ ← lift (py_assert (vs_b1 v =? 0xa9));
  _ ← lift (py_assert (vs_b9 v =? 0x0e));
  _ ← lift (py_assert (vs_version1 v =? vs_version2 v));
  mret {| _product_id := vs_product_id v; _version := vs_version1 v;
          _pad_version := vs_pad_version v; _mode := vs_mode v |}.

(** ** Python text *)

(** A Python [str] of ASCII characters. *)
Abbreviation pystr := (list ascii).

Definition lit (s : string) : pystr := list_ascii_of_string s.

#[global] Instance ascii_eqdec : EqDecision ascii := Ascii.ascii_dec.

Definition newline : ascii := ascii_of_nat 10.

(** [s.split(c)] for a one-character separator [c]. *)
Fixpoint str_split (c : ascii) (s : pystr) : list pystr :=
  match s with
  | [] => [[]]
  | x :: s' =>
      if decide (x = c) then [] :: str_split c s'
      else match str_split c s' with
           | p :: ps => (x :: p) :: ps
           | [] => [[x]]
           end
  end.

(** [l[i]] on a list, for [0 <= i]. *)
Definition list_index {A} (l : list A) (i : nat) : result A :=
  match l !! i with
  | Some x => Ok x
  | None => Raise IndexError
  end.

(** [s.endswith(suffix)]. *)
Definition str_endswith (s suffix : pystr) : bool := bool_decide (suffix `suffix_of` s).

(** The digits of [n] in [base], most significant first, pushed onto
    [acc]; [fuel] bounds the number of rounds. *)
Fixpoint to_digits (fuel : nat) (base n : Z) (acc : list Z) : list Z :=
  match fuel with
  | O => acc
  | S fuel' =>
      if n <? base then n :: acc
      else to_digits fuel' base (n / base) (n mod base :: acc)
  end.

(** The digits of [0 <= n]: [Z.log2 n + 1] rounds are always enough. *)
Definition digits (base n : Z) : list Z := to_digits (S (Z.to_nat (Z.log2 n))) base n [].

Definition digit_char (upper : bool) (d : Z) : ascii :=
  if d <? 10 then ascii_of_nat (48 + Z.to_nat d)
  else ascii_of_nat ((if upper then 55 else 87) + Z.to_nat d)%nat.

(** [format(z, '0<width>d')], [format(z, '0<width>X')] and
    [format(z, '0<width>x')] for [base] 10 or 16 ([width] 0: no padding, as
    ['{}'.format(z)]): the sign, then zeros up to [width] characters, then
    the digits. *)
Definition format_int (width : nat) (base : Z) (upper : bool) (z : Z) : pystr :=
  let sign := if z <? 0 then ["-"%char] else [] in
  let ds := map (digit_char upper) (digits base (Z.abs z)) in
  sign ++ replicate (width - length sign - length ds) "0"%char ++ ds.

(** [hashlib.md5(.).hexdigest()] of the 128-bit digest [h]: 32 lowercase
    hex digits. *)
Definition hexdigest (h : Z) : pystr := format_int 32 16 false h.

(** ASCII whitespace as [int()] skips it ([str.isspace]). *)
Definition is_space (c : ascii) : bool :=
  let n := nat_of_ascii c in
  ((9 <=? n)%nat && (n <=? 13)%nat) || ((28 <=? n)%nat && (n <=? 32)%nat).

Fixpoint lstrip (s : pystr) : pystr :=
  match s with
  | c :: s' => if is_space c then lstrip s' else s
  | [] => []
  end.

Definition hex_value (c : ascii) : option Z :=
  let n := Z.of_nat (nat_of_ascii c) in
  if (48 <=? n) && (n <=? 57) then Some (n - 48)
  else if (65 <=? n) && (n <=? 70) then Some (n - 55)
  else if (97 <=? n) && (n <=? 102) then Some (n - 87)
  else None.

(** The digit run of [int(s, 16)] after its first digit: digits, two of
    them possibly separated by one underscore; the value and the text
    that follows. *)
Fixpoint scan_hex (s : pystr) (acc : Z) : Z * pystr :=
  match s with
  | [] => (acc, [])
  | c :: s' =>
      match hex_value c with
      | Some d => scan_hex s' (acc * 16 + d)
      | None =>
          if decide (c = "_"%char) then
            match s' with
            | c' :: s'' =>
                match hex_value c' with
                | Some d => scan_hex s'' (acc * 16 + d)
                | None => (acc, s)
                end
            | [] => (acc, s)
            end
          else (acc, s)
      end
  end.

(** [int(s, 16)]: leading whitespace, an optional sign, an optional [0x]
    or [0X] prefix (one underscore may follow it), hex digits with single
    underscores between them, trailing whitespace; anything else is a
    [ValueError]. *)
Definition int_base16 (s : pystr) : result Z :=
  let s1 := lstrip s in
  let '(neg, s2) :=
    match s1 with
    | c :: r =>
        if decide (c = "-"%char) then (true, r)
        else if decide (c = "+"%char) then (false, r) else (false, s1)
    | [] => (false, s1)
    end in
  let s3 :=
    match s2 with
    | c0 :: c1 :: r =>
        if bool_decide (c0 = "0"%char) &&
           (bool_decide (c1 = "x"%char) || bool_decide (c1 = "X"%char))
        then match r with
             | c :: r' => if decide (c = "_"%char) then r' else r
             | [] => r
             end
        else s2
    | _ => s2
    end in
  match s3 with
  | c :: _ =>
      match hex_value c with
      | Some _ =>
          let '(v, rest) := scan_hex s3 0 in
          if forallb is_space rest then Ok (if neg then - v else v) else Raise ValueError
      | None => Raise ValueError
      end
  | [] => Raise ValueError
  end.

(** [now.strftime(fmt)]: each [%c] becomes [directive c], the expansion of
    the directive for that clock reading; other characters are kept. *)
Fixpoint strftime (directive : ascii -> pystr) (fmt : pystr) : pystr :=
  match fmt with
  | c :: rest =>
      if decide (c = "%"%char) then
        match rest with
        | d :: rest' => directive d ++ strftime directive rest'
        | [] => [c]
        end
      else c :: strftime directive rest
  | [] => []
  end.

(** [os.path.join(a, b)] (POSIX). *)
Definition path_join (a b : pystr) : pystr :=
  if bool_decide (["/"%char] `prefix_of` b) then b
  else if bool_decide (a = []) || bool_decide (["/"%char] `suffix_of` a) then a ++ b
  else a ++ "/"%char :: b.

(** ** The device object: [PegasusDevice] *)

(** The [notes_count] property (lines 178-184), on the device handle. *)
Definition notes_count : dev Z :=
  _ ← _dev_write_command [x80; xc0];
  reply ← _dev_read default_timeout;
  _ ← lift (check_byte reply 0 0x81);
  _ ← lift (check_byte reply 1 0xc0);
  b2 ← lift (reply_index reply 2);
  b3 ← lift (reply_index reply 3);
  mret (b2 + Z.shiftl b3 8).

(** The loop [for i in range(12)] of [_get_device_id]. *)
Fixpoint device_id_loop (reply : option (list byte)) (is : list nat) (device_id : Z)
    : result Z :=
  match is with
  | [] => Ok device_id
  | i :: is' =>
      b ← reply_index reply (i + 2);
      device_id_loop reply is' (Z.shiftl device_id 8 + b)
  end.

Definition _get_device_id : dev Z :=
  _ ← _dev_write_command [x80; xd3];
  device_id_reply ← _dev_read default_timeout;
  _ ← lift (check_byte device_id_reply 0 0x81);
  _ ← lift (check_byte device_id_reply 1 0xd3);
  lift (device_id_loop device_id_reply (seq 0 12) 0).

(** The attributes of a [PegasusDevice]: the device file [_f] and the
    cached values, [None] until first read. *)
Record PegasusDevice := {
  _f : device;
  pd_product_id : option Z;
  pd_version : option Z;
  pd_pad_version : option Z;
  pd_mode : option Z;
  pd_device_id : option Z
}.

Definition PegasusDevice_init (f : device) : PegasusDevice :=
  {| _f := f; pd_product_id := None; pd_version := None; pd_pad_version := None;
     pd_mode := None; pd_device_id := None |}.

(** The running script: the device object and the text of each [print]
    call so far.  An exception ends the script; the state it reached is
    then not kept. *)
Record process := { self : PegasusDevice; stdout : list pystr }.

Definition obj (A : Type) : Type := process -> result (A * process).

#[global] Instance obj_ret : MRet obj := fun A a p => Ok (a, p).
#[global] Instance obj_bind : MBind obj :=
  fun A B f m p => match m p with
                   | Ok (a, p') => f a p'
                   | Raise e => Raise e
                   | Diverge => Diverge
                   end.

Definition with_f (o : PegasusDevice) (d : device) : PegasusDevice :=
  {| _f := d; pd_product_id := pd_product_id o; pd_version := pd_version o;
     pd_pad_version := pd_pad_version o; pd_mode := pd_mode o;
     pd_device_id := pd_device_id o |}.

(** A method of the device handle, called on [self._f]. *)
Definition on_f {A} (m : dev A) : obj A :=
  fun p => match m (_f (self p)) with
           | Ok (a, d) => Ok (a, {| self := with_f (self p) d; stdout := stdout p |})
           | Raise e => Raise e
           | Diverge => Diverge
           end.

Definition lift_obj {A} (r : result A) : obj A := fun p => a ← r; Ok (a, p).
Definition get_self : obj PegasusDevice := fun p => Ok (self p, p).
Definition put_self (o : PegasusDevice) : obj unit :=
  fun p => Ok (tt, {| self := o; stdout := stdout p |}).
Definition print (s : pystr) : obj unit :=
  fun p => Ok (tt, {| self := self p; stdout := stdout p ++ [s] |}).

(** [_get_version] as a method: the attributes are set once all its
    assertions hold. *)
Definition PegasusDevice_get_version : obj unit :=
  v ← on_f _get_version;
  o ← get_self;
  put_self {| _f := _f o; pd_product_id := Some (_product_id v);
              pd_version := Some (_version v); pd_pad_version := Some (_pad_version v);
              pd_mode := Some (_mode v); pd_device_id := pd_device_id o |}.

(** The properties [product_id], [version], [pad_version] and [mode]
    (lines 113-135): each calls [_get_version] when its own attribute is
    still [None], then returns the attribute. *)
Definition version_property (field : PegasusDevice -> option Z) : obj (option Z) :=
  o ← get_self;
  _ ← match field o with
      | None => PegasusDevice_get_version
      | Some _ => mret tt
      end;
  o' ← get_self;
  mret (field o').

Definition PegasusDevice_product_id : obj (option Z) := version_property pd_product_id.
Definition PegasusDevice_version : obj (option Z) := version_property pd_version.
Definition PegasusDevice_pad_version : obj (option Z) := version_property pd_pad_version.
Definition PegasusDevice_mode : obj (option Z) := version_property pd_mode.

(** [{0x00: 'RAW', 0x01: 'XY', 0x02: 'Tablet', 0x03: 'Mobile'}.get(mode, 'Unknown')]. *)
Definition mode_name (m : option Z) : pystr :=
  match m with
  | Some 0 => lit "RAW"
  | Some 1 => lit "XY"
  | Some 2 => lit "Tablet"
  | Some 3 => lit "Mobile"
  | _ => lit "Unknown"
  end.

Definition PegasusDevice_mode_str : obj pystr :=
  m ← PegasusDevice_mode; mret (mode_name m).

(** The [device_id] property (lines 107-111). *)
Definition PegasusDevice_device_id : obj (option Z) :=
  o ← get_self;
  _ ← match pd_device_id o with
      | None =>
          d ← on_f _get_device_id;
          o' ← get_self;
          put_self {| _f := _f o'; pd_product_id := pd_product_id o';
                      pd_version := pd_version o'; pd_pad_version := pd_pad_version o';
                      pd_mode := pd_mode o'; pd_device_id := Some d |}
      | Some _ => mret tt
      end;
  o' ← get_self;
  mret (pd_device_id o').

Definition PegasusDevice_notes_count : obj Z := on_f notes_count.

(** ['{}'.format(v)]. *)
Definition str_of (v : option Z) : pystr :=
  match v with
  | Some z => format_int 0 10 false z
  | None => lit "None"
  end.

(** ['{:012X}'.format(v)]: [None] has no such format. *)
Definition format_012X (v : option Z) : result pystr :=
  match v with
  | Some z => Ok (format_int 12 16 true z)
  | None => Raise TypeError
  end.

(** [PegasusDevice.print_info] (lines 141-144). *)
Definition PegasusDevice_print_info : obj unit :=
  pid ← PegasusDevice_product_id;
  v ← PegasusDevice_version;
  pv ← PegasusDevice_pad_version;
  m ← PegasusDevice_mode;
  ms ← PegasusDevice_mode_str;
  _ ← print (lit "Product ID: " ++ str_of pid ++ newline :: lit "Version: " ++ str_of v
             ++ newline :: lit "Pad version: " ++ str_of pv ++ newline :: lit "Mode: "
             ++ str_of m ++ lit " (" ++ ms ++ lit ")");
  did ← PegasusDevice_device_id;
  t ← lift_obj (format_012X did);
  _ ← print (lit "Device Id: " ++ t);
  n ← PegasusDevice_notes_count;
  print (lit "Notes count: " ++ format_int 2 10 false n).

(** ** Stored dumps: [PegasusFile] *)

Record PegasusFile := { pf_data : list byte; pf_device_id : Z }.

(** [PegasusFile(f)], where [contents] is what [open(f, 'rb').read()]
    returns. *)
Definition PegasusFile_init (f : pystr) (contents : list byte) : result PegasusFile :=
  part ← list_index (str_split "-"%char f) 1;
  stem ← list_index (str_split "."%char part) 0;
  device_id ← int_base16 stem;
  mret {| pf_data := contents; pf_device_id := device_id |}.

Definition PegasusFile_notes_count (md5 : list byte -> Z) (pf : PegasusFile) : result nat :=
  notes ← load_pegasus_notes md5 (pf_data pf);
  mret (length notes).

Definition PegasusFile_download_data (pf : PegasusFile) : list byte := pf_data pf.

(** ** The script (lines 248-277) *)

(** The name of the dump the script saves after a device download. *)
Definition bin_file_name (directive : ascii -> pystr) (device_id : Z) : pystr :=
  strftime directive (lit "%Y%m%d%H%M%S-" ++ format_int 12 16 true device_id ++ lit ".bin").

(** The name of the SVG file of a note. *)
Definition svg_file_name (directive : ascii -> pystr) (n : PegasusNote) : pystr :=
  strftime directive (lit "%Y%m%d-" ++ format_int 2 10 false (_note_id n) ++ lit "-"
                      ++ hexdigest (_hash n) ++ lit ".svg").

(** [[x.split('.')[0].split('-')[2] for x in listing if x.endswith('.svg')]]. *)
Fixpoint existing_hashes (listing : list pystr) : result (list pystr) :=
  match listing with
  | [] => Ok []
  | x :: xs =>
      if str_endswith x (lit ".svg") then
        stem ← list_index (str_split "."%char x) 0;
        h ← list_index (str_split "-"%char stem) 2;
        hs ← existing_hashes xs;
        Ok (h :: hs)
      else existing_hashes xs
  end.

(** The loop over the notes (lines 274-277): the name and note of each SVG
    file written; [clock k] is the clock reading of the [k]-th file
    written ([datetime.datetime.now()] is read once per file). *)
Fixpoint export_notes (clock : nat -> ascii -> pystr) (k : nat) (existing : list pystr)
    (notes : list PegasusNote) : list (pystr * PegasusNote) :=
  match notes with
  | [] => []
  | n :: ns =>
      if bool_decide (hexdigest (_hash n) ∈ existing) then export_notes clock k existing ns
      else (svg_file_name (clock k) n, n) :: export_notes clock (S k) existing ns
  end.

(** Lines 272-277, [listing] being [os.listdir(args.output)] and [data]
    the downloaded buffer: the path and note of each SVG file written
    ([note.as_svg()] is its content). *)
Definition main_export (md5 : list byte -> Z) (clock : nat -> ascii -> pystr)
    (output : pystr) (listing : list pystr) (data : list byte)
    : result (list (pystr * PegasusNote)) :=
  existing ← existing_hashes listing;
  notes ← load_pegasus_notes md5 data;
  mret (map (fun nn => (path_join output nn.1, nn.2)) (export_notes clock 0 existing notes)).

(** ** Inputs used in the statements *)

(** A 4-byte group of the stroke stream and the point [<hh] reads from it. *)
Definition quad : Type := (byte * byte * byte * byte)%type.
Definition quad_bytes (q : quad) : list byte :=
  let '(b0, b1, b2, b3) := q in [b0; b1; b2; b3].
Definition quad_xy (q : quad) : Z * Z :=
  let '(b0, b1, b2, b3) := q in
  (s16 (byte_val b0 + Z.shiftl (byte_val b1) 8),
   s16 (byte_val b2 + Z.shiftl (byte_val b3) 8)).

(** A stroke payload: each stroke's groups followed by the sentinel. *)
Definition encode_strokes (ss : list (list quad)) : list byte :=
  concat (map (fun s => concat (map quad_bytes s) ++ sentinel) ss).

Definition byte_of_Z (z : Z) : byte :=
  match Byte.of_N (Z.to_N z) with Some b => b | None => x00 end.

(** A bulk-transfer frame: big-endian packet id, then the payload. *)
Definition frame_of (i : Z) (payload : list byte) : list byte :=
  byte_of_Z (i / 256) :: byte_of_Z (i mod 256) :: payload.

(** The [0xb5] reply announcing [n] packets. *)
Definition download_reply (n : Z) (pad : list byte) : list byte :=
  [xaa; xaa; xaa; xaa; xaa; byte_of_Z (n / 256); byte_of_Z (n mod 256); x55; x55]
  ++ pad.

(** A frame delivered by the first read, well before the deadline. *)
Definition ok_trace (f : list byte) : trace := [(0, RData f)].

(** The command frame [_dev_write_command] writes for a 1- or 2-byte opcode. *)
Definition cmd_frame (command : list byte) : list byte :=
  match Byte.of_nat (length command) with
  | Some len => [x02; len] ++ command ++ replicate (6 - length command) x00
  | None => []
  end.

(** The session of a bulk download: the [0xb5] reply announcing [n]
    packets, one frame per read for the packet ids [ids] (payload [pl i]
    for id [i]), then the traces of later reads. *)
Definition bulk_session (w : list (list byte)) (n : nat) (pad : list byte)
    (pl : Z -> list byte) (ids : list Z) (rest : list trace) : device :=
  {| dev_written := w;
     dev_traces := ok_trace (download_reply (Z.of_nat n) pad)
                   :: map (fun i => ok_trace (frame_of i (pl i))) ids ++ rest |}.

(** A bulk download that falls short: the [0xb5] reply announcing [n]
    packets, the frames [fr] (id and payload), one read [tr0], then the
    traces of later reads. *)
Definition bulk_session_short (w : list (list byte)) (n : nat) (pad : list byte)
    (fr : list (Z * list byte)) (tr0 : trace) (rest : list trace) : device :=
  {| dev_written := w;
     dev_traces := ok_trace (download_reply (Z.of_nat n) pad)
                   :: map (fun ip => ok_trace (frame_of ip.1 ip.2)) fr
                   ++ tr0 :: rest |}.

(** A 24-bit little-endian next-record pointer. *)
Definition ptr24 (n : nat) : list byte :=
  let z := Z.of_nat n in
  [byte_of_Z (z mod 256); byte_of_Z (z / 256 mod 256); byte_of_Z (z / 65536 mod 256)].

(** A note stream laid out as the decoder walks it: each record is its
    next-record pointer, the 11 remaining header bytes [h] (flags first,
    then the note id, ...) and its stroke payload; a zero pointer ends the
    list.  [start] is the offset of the first record in the buffer. *)
Fixpoint build_buffer (start : nat) (recs : list (list byte * list (list quad)))
    : list byte :=
  match recs with
  | [] => [x00; x00; x00]
  | (h, ss) :: recs' =>
      let next := (start + 3 + length h + length (encode_strokes ss))%nat in
      ptr24 next ++ h ++ encode_strokes ss ++ build_buffer next recs'
  end.

(** The note a record [(h, ss)] of [build_buffer] decodes to. *)
Definition built_note (md5 : list byte -> Z) (r : list byte * list (list quad))
    : PegasusNote :=
  {| _hash := md5 (encode_strokes r.2);
     _strokes := map (map quad_xy) r.2;
     _note_id := byte_val (nth 1 r.1 x00) |}.

(** A record the decoder accepts: 11 header bytes after the pointer, a
    flags byte with bit 4 set, and no point group equal to the sentinel. *)
Definition wf_record (r : list byte * list (list quad)) : Prop :=
  length r.1 = 11%nat /\
  (exists flags, r.1 !! 0%nat = Some flags /\ Z.testbit (byte_val flags) 4 = true) /\
  Forall (Forall (fun q => quad_bytes q <> sentinel)) r.2.


(** A decimal digit, as [strftime] writes the fields [%Y], [%m], [%d],
    [%H], [%M] and [%S]. *)
Definition is_decimal (c : ascii) : Prop := (48 <= nat_of_ascii c <= 57)%nat.

(** A clock reading whose date and time fields expand to digits. *)
Definition date_digits (dir : ascii -> pystr) : Prop :=
  forall d, d ∈ lit "YmdHMS" -> Forall is_decimal (dir d).

(** The big-endian number [acc] followed by the bytes [l]. *)
Definition be_bytes (acc : Z) (l : list byte) : Z :=
  fold_left (fun a b => a * 256 + byte_val b) l acc.

(** The three lines [PegasusDevice.print_info] prints. *)
Definition info_lines (v : version_info) (id n : Z) : list pystr :=
  [lit "Product ID: " ++ str_of (Some (_product_id v)) ++ newline :: lit "Version: "
   ++ str_of (Some (_version v)) ++ newline :: lit "Pad version: "
   ++ str_of (Some (_pad_version v)) ++ newline :: lit "Mode: " ++ str_of (Some (_mode v))
   ++ lit " (" ++ mode_name (Some (_mode v)) ++ lit ")";
   lit "Device Id: " ++ format_int 12 16 true id;
   lit "Notes count: " ++ format_int 2 10 false n].

(** One step of the digit run of [int(s, 16)]. *)
Definition hex_step (v : Z) (c : ascii) : Z := v * 16 + default 0 (hex_value c).

(** A character [format_int] writes for a digit. *)
Definition digit_of (u : bool) (c : ascii) : Prop := exists d, 0 <= d < 16 /\ c = digit_char u d.

(** Sample device replies: a version reply (product 1, version 2, pad
    version 3, mode 1), a device-id reply (id [0x1234]) and a notes-count
    reply (5 notes). *)
Definition sample_version_reply : list byte :=
  [x80; xa9; x01; x00; x02; x00; x02; x00; x03; x0e; x01] ++ replicate 53 x00.
Definition sample_id_reply : list byte :=
  [x81; xd3; x00; x00; x00; x00; x00; x00; x00; x00; x00; x00; x12; x34]
  ++ replicate 50 x00.
Definition sample_count_reply : list byte := [x81; xc0; x05; x00] ++ replicate 60 x00.

(** A sample download holding one note (id 3, one stroke of one point). *)
Definition sample_records : list (list byte * list (list quad)) :=
  [([x9c; x03; x05; x01; x02; x03; x04; x01; x00; x00; x00], [[(x01, x00, x02, x00)]])].
Definition sample_note_buffer : list byte := build_buffer 0 sample_records.

(** * Proofs *)

(** ** Results *)

Definition returns {A} (r : result A) : Prop := r <> Diverge.

Lemma returns_bind {A B} (m : result A) (f : A -> result B) :
  returns m -> (forall a, m = Ok a -> returns (f a)) -> returns (m ≫= f).
Proof. unfold returns; destruct m; simpl; eauto; congruence. Qed.

Lemma bind_Ok {A B} (a : A) (f : A -> result B) : (Ok a ≫= f) = f a.
Proof. reflexivity. Qed.

Lemma bind_Raise {A B} e (f : A -> result B) : (Raise e ≫= f) = Raise e.
Proof. reflexivity. Qed.

Lemma bind_eq_Ok {A B} (m : result A) (f : A -> result B) b :
  (m ≫= f) = Ok b -> exists a, m = Ok a /\ f a = Ok b.
Proof. destruct m; simpl; intros H; eauto; discriminate. Qed.

Lemma index_returns data i : returns (index data i).
Proof. unfold index, returns; destruct (data !! i); discriminate. Qed.

Lemma index_Ok data i z : index data i = Ok z -> (i < length data)%nat.
Proof.
  unfold index. destruct (data !! i) eqn:E; intros H; [|discriminate].
  eapply lookup_lt_Some; eauto.
Qed.

Lemma index_app_l l r i : (i < length l)%nat -> index (l ++ r) i = index l i.
Proof. intros H. unfold index. by rewrite lookup_app_l. Qed.

Lemma py_assert_returns b : returns (py_assert b).
Proof. unfold returns, py_assert; destruct b; discriminate. Qed.

Create HintDb pyres.
#[local] Hint Resolve index_returns py_assert_returns : pyres.

Lemma unpack_hh_returns g : returns (unpack_hh g).
Proof.
  unfold returns, unpack_hh.
  destruct g as [|? [|? [|? [|? [|]]]]]; discriminate.
Qed.

Lemma decode_header_returns data : returns (decode_header data).
Proof.
  unfold decode_header.
  repeat (apply returns_bind; [auto with pyres|intros ? _]).
  discriminate.
Qed.

Lemma stroke_loop_returns rest : forall strokes cur,
  returns (stroke_loop rest strokes cur).
Proof.
  induction rest as [rest IH] using (induction_ltof1 _ (@length byte)).
  unfold ltof in IH. intros strokes cur.
  destruct rest as [|b0 [|b1 [|b2 [|b3 rest']]]]; simpl;
    try (unfold returns; discriminate).
  destruct (decide _); apply IH; simpl; lia.
Qed.

(** Only groups of exactly 4 bytes are consumed. *)
Lemma stroke_loop_Ok_len rest : forall strokes cur r,
  stroke_loop rest strokes cur = Ok r -> Nat.modulo (length rest) 4 = 0%nat.
Proof.
  induction rest as [rest IH] using (induction_ltof1 _ (@length byte)).
  unfold ltof in IH. intros strokes cur r.
  destruct rest as [|b0 [|b1 [|b2 [|b3 rest']]]]; try discriminate;
    [reflexivity|].
  intros H.
  replace (length (b0 :: b1 :: b2 :: b3 :: rest')) with (length rest' + 1 * 4)%nat
    by (simpl; lia).
  rewrite Nat.Div0.mod_add.
  simpl in H. destruct (decide _); eapply IH; eauto; simpl; lia.
Qed.

Lemma decode_header_Ok_len data h :
  decode_header data = Ok h -> (14 <= length data)%nat.
Proof.
  unfold decode_header. intros H.
  repeat (apply bind_eq_Ok in H; destruct H as [? [? H]]).
  match goal with E : index data 13 = Ok _ |- _ => apply index_Ok in E end.
  lia.
Qed.

Section DecoderProofs.
Variable md5 : list byte -> Z.

Lemma PegasusNote_init_returns data : returns (PegasusNote_init md5 data).
Proof.
  unfold PegasusNote_init. apply returns_bind; [apply decode_header_returns|].
  intros h _. apply returns_bind; [apply stroke_loop_returns|].
  intros s _. discriminate.
Qed.

Lemma PegasusNote_init_Ok data n :
  PegasusNote_init md5 data = Ok n ->
  exists h strokes, decode_header data = Ok h /\
    stroke_loop (drop 14 data) [] [] = Ok strokes /\
    n = {| _hash := md5 (drop 14 data); _strokes := strokes;
           _note_id := hdr_note_id h |}.
Proof.
  unfold PegasusNote_init. intros H.
  apply bind_eq_Ok in H as [h [Hh H]].
  apply bind_eq_Ok in H as [s [Hs H]].
  injection H as <-. eauto.
Qed.

Lemma PegasusNote_init_empty : PegasusNote_init md5 [] = Raise IndexError.
Proof. reflexivity. Qed.

Lemma read_pointer_returns data o : returns (read_pointer data o).
Proof.
  unfold read_pointer.
  repeat (apply returns_bind; [auto with pyres|intros ? _]).
  discriminate.
Qed.

Lemma read_pointer_Ok data o p :
  read_pointer data o = Ok p -> (o + 2 < length data)%nat.
Proof.
  unfold read_pointer. intros H.
  repeat (apply bind_eq_Ok in H; destruct H as [? [? H]]).
  match goal with E : index data (o + 2) = Ok _ |- _ => apply index_Ok in E end.
  lia.
Qed.

Lemma slice_nonincreasing data offset pointer :
  (pointer <= offset)%nat -> slice data offset pointer = [].
Proof.
  intros H. unfold slice. replace (pointer - offset)%nat with 0%nat by lia.
  reflexivity.
Qed.

(** A round whose pointer does not move past the current offset decodes an
    empty slice, which raises. *)
Lemma load_loop_nonincreasing fuel data offset pointer notes :
  pointer <> 0%nat -> (pointer <= offset)%nat ->
  load_loop md5 (S fuel) data offset pointer notes = Raise IndexError.
Proof.
  intros Hnz Hle. simpl. destruct (decide (pointer = 0%nat)); [contradiction|].
  rewrite slice_nonincreasing by assumption. reflexivity.
Qed.

Lemma load_loop_returns data : forall fuel offset pointer notes,
  (offset < length data)%nat -> (length data - offset < fuel)%nat ->
  returns (load_loop md5 fuel data offset pointer notes).
Proof.
  induction fuel as [|fuel IH]; intros offset pointer notes Hoff Hfuel;
    [lia|].
  simpl. destruct (decide (pointer = 0%nat)); [discriminate|].
  apply returns_bind; [apply PegasusNote_init_returns|].
  intros nt Hn.
  destruct (decide (pointer <= offset)%nat) as [Hle|Hgt].
  { rewrite slice_nonincreasing in Hn by assumption. discriminate. }
  apply returns_bind; [apply read_pointer_returns|].
  intros p Hp. apply read_pointer_Ok in Hp.
  apply IH; lia.
Qed.

End DecoderProofs.

(** ** Header flags *)

Lemma flag_set_testbit b :
  flag_set (byte_val b) 128 = Z.testbit (byte_val b) 7 /\
  flag_set (byte_val b) 64 = Z.testbit (byte_val b) 6 /\
  flag_set (byte_val b) 32 = Z.testbit (byte_val b) 5 /\
  flag_set (byte_val b) 16 = Z.testbit (byte_val b) 4 /\
  flag_set (byte_val b) 8 = Z.testbit (byte_val b) 3 /\
  flag_set (byte_val b) 4 = Z.testbit (byte_val b) 2 /\
  flag_set (byte_val b) 2 = Z.testbit (byte_val b) 1 /\
  flag_set (byte_val b) 1 = Z.testbit (byte_val b) 0.
Proof. destruct b; vm_compute; repeat split. Qed.

Ltac lookup_at data i :=
  let H := fresh "Hlk" in
  assert (is_Some (data !! i)) as [? H] by (apply lookup_lt_is_Some_2; lia);
  rewrite H.

Lemma decode_header_spec data flags :
  data !! 3%nat = Some flags -> (14 <= length data)%nat ->
  (Z.testbit (byte_val flags) 4 = false -> decode_header data = Raise AssertionError) /\
  (Z.testbit (byte_val flags) 4 = true ->
   exists h, decode_header data = Ok h /\
     note_contains_content h = Z.testbit (byte_val flags) 7 /\
     note_closed h = negb (Z.testbit (byte_val flags) 6) /\
     note_closed_by_user h = Z.testbit (byte_val flags) 5 /\
     note_side_left h = Z.testbit (byte_val flags) 3 /\
     note_side_right h = Z.testbit (byte_val flags) 2 /\
     note_already_uploaded h = negb (Z.testbit (byte_val flags) 1) /\
     pen_bat_low h = negb (Z.testbit (byte_val flags) 0)).
Proof.
  intros H3 Hlen.
  destruct (flag_set_testbit flags) as (E7 & E6 & E5 & E4 & E3 & E2 & E1 & E0).
  unfold decode_header, index. rewrite H3. cbn [mbind result_bind].
  unfold py_assert. rewrite E4.
  split; intros Hb; rewrite Hb; [reflexivity|].
  lookup_at data 4%nat. lookup_at data 5%nat. lookup_at data 6%nat.
  lookup_at data 7%nat. lookup_at data 8%nat. lookup_at data 9%nat.
  lookup_at data 11%nat. lookup_at data 12%nat. lookup_at data 13%nat.
  eexists; split; [reflexivity|]. simpl.
  rewrite E7, E6, E5, E3, E2, E1, E0. repeat split.
Qed.

Lemma decode_header_app hdr rest :
  length hdr = 14%nat -> decode_header (hdr ++ rest) = decode_header hdr.
Proof.
  intros Hl. unfold decode_header.
  rewrite !index_app_l by lia. reflexivity.
Qed.

(** ** The stroke stream *)

Lemma stroke_loop_quad q rest strokes cur :
  stroke_loop (quad_bytes q ++ rest) strokes cur =
  if decide (quad_bytes q = sentinel)
  then stroke_loop rest (strokes ++ [cur]) []
  else stroke_loop rest strokes (cur ++ [quad_xy q]).
Proof. destruct q as [[[b0 b1] b2] b3]. reflexivity. Qed.

Lemma stroke_loop_sentinel rest strokes cur :
  stroke_loop (sentinel ++ rest) strokes cur = stroke_loop rest (strokes ++ [cur]) [].
Proof. reflexivity. Qed.

(** Groups other than the sentinel extend the open stroke. *)
Lemma stroke_loop_points qs rest strokes cur :
  Forall (fun q => quad_bytes q <> sentinel) qs ->
  stroke_loop (concat (map quad_bytes qs) ++ rest) strokes cur =
  stroke_loop rest strokes (cur ++ map quad_xy qs).
Proof.
  revert cur. induction qs as [|q qs IH]; intros cur Hqs; simpl.
  - by rewrite app_nil_r.
  - inversion Hqs as [|? ? Hq Hqs']; subst.
    rewrite <- app_assoc, stroke_loop_quad, decide_False by assumption.
    rewrite IH by assumption. by rewrite <- app_assoc.
Qed.

Lemma stroke_loop_encode ss rest strokes :
  Forall (Forall (fun q => quad_bytes q <> sentinel)) ss ->
  stroke_loop (encode_strokes ss ++ rest) strokes [] =
  stroke_loop rest (strokes ++ map (map quad_xy) ss) [].
Proof.
  revert strokes. induction ss as [|s ss IH]; intros strokes Hss; simpl.
  - by rewrite app_nil_r.
  - inversion Hss as [|? ? Hs Hss']; subst.
    unfold encode_strokes in *. simpl.
    rewrite <- !app_assoc, stroke_loop_points by assumption.
    rewrite stroke_loop_sentinel, IH by assumption.
    simpl. by rewrite <- app_assoc.
Qed.

(** ** Points *)

Lemma byte_val_range b : 0 <= byte_val b <= 255.
Proof.
  unfold byte_val. pose proof (Byte.to_N_bounded b). lia.
Qed.

Lemma byte_val_inj b1 b2 : byte_val b1 = byte_val b2 -> b1 = b2.
Proof.
  unfold byte_val. intros H. apply N2Z.inj in H.
  pose proof (Byte.of_to_N b1) as E1. pose proof (Byte.of_to_N b2) as E2.
  rewrite H in E1. congruence.
Qed.

(** The only group that [<hh] reads as [(0, -32768)] is the sentinel. *)
Lemma quad_xy_pen_lift q : quad_xy q = (0, -32768) -> quad_bytes q = sentinel.
Proof.
  destruct q as [[[b0 b1] b2] b3]. unfold quad_xy, s16. simpl.
  rewrite !Z.shiftl_mul_pow2 by lia. change (2 ^ 8) with 256.
  pose proof (byte_val_range b0). pose proof (byte_val_range b1).
  pose proof (byte_val_range b2). pose proof (byte_val_range b3).
  intros E. injection E as Ex Ey.
  destruct (_ <? 32768) eqn:Cx in Ex; destruct (_ <? 32768) eqn:Cy in Ey;
    rewrite ?Z.ltb_lt, ?Z.ltb_ge in *; try lia.
  assert (byte_val b0 = byte_val x00) by (vm_compute (byte_val x00); vm_compute (byte_val x80); lia).
  assert (byte_val b1 = byte_val x00) by (vm_compute (byte_val x00); vm_compute (byte_val x80); lia).
  assert (byte_val b2 = byte_val x00) by (vm_compute (byte_val x00); vm_compute (byte_val x80); lia).
  assert (byte_val b3 = byte_val x80) by (vm_compute (byte_val x00); vm_compute (byte_val x80); lia).
  unfold sentinel. repeat f_equal; apply byte_val_inj; assumption.
Qed.

(** ** The note list *)

Section NoteListProofs.
Variable md5 : list byte -> Z.

Lemma load_loop_step fuel data offset pointer notes :
  pointer <> 0%nat ->
  load_loop md5 (S fuel) data offset pointer notes =
  (n ← PegasusNote_init md5 (slice data offset pointer);
   pointer' ← read_pointer data pointer;
   load_loop md5 fuel data pointer pointer' (notes ++ [n])).
Proof. intros H. simpl. by rewrite decide_False. Qed.

Lemma index_app_r l r i : index (l ++ r) (length l + i) = index r i.
Proof.
  unfold index. rewrite lookup_app_r by lia.
  by replace (length l + i - length l)%nat with i by lia.
Qed.

Lemma read_pointer_app l r :
  read_pointer (l ++ r) (length l) = read_pointer r 0.
Proof.
  unfold read_pointer.
  rewrite <- (Nat.add_0_r (length l)) at 1.
  rewrite !index_app_r. reflexivity.
Qed.

Lemma slice_prefix l r : slice (l ++ r) 0 (length l) = l.
Proof. unfold slice. rewrite drop_0, Nat.sub_0_r. apply take_app_length. Qed.

Definition no_pen_lift (s : stroke) : Prop := (0, -32768) ∉ s.

Lemma stroke_loop_no_pen_lift rest : forall strokes cur r,
  Forall no_pen_lift strokes -> no_pen_lift cur ->
  stroke_loop rest strokes cur = Ok r -> Forall no_pen_lift r.
Proof.
  induction rest as [rest IH] using (induction_ltof1 _ (@length byte)).
  unfold ltof in IH. intros strokes cur r Hs Hc.
  destruct rest as [|b0 [|b1 [|b2 [|b3 rest']]]]; simpl; try discriminate.
  { intros E. injection E as <-. assumption. }
  destruct (decide _) as [Hsent|Hsent]; intros E;
    (eapply IH; [| | |exact E]; [simpl; lia|..]).
  - apply Forall_app; split; [assumption|]. by apply Forall_singleton.
  - unfold no_pen_lift. set_solver.
  - assumption.
  - unfold no_pen_lift in *. rewrite elem_of_app, list_elem_of_singleton.
    intros [Hin|Hxy]; [contradiction|].
    apply Hsent. apply (quad_xy_pen_lift (b0, b1, b2, b3)). symmetry. exact Hxy.
Qed.

Lemma load_loop_no_pen_lift data : forall fuel offset pointer notes r,
  Forall (fun n => Forall no_pen_lift (_strokes n)) notes ->
  load_loop md5 fuel data offset pointer notes = Ok r ->
  Forall (fun n => Forall no_pen_lift (_strokes n)) r.
Proof.
  induction fuel as [|fuel IH]; intros offset pointer notes r Hn; [discriminate|].
  simpl. destruct (decide _).
  { intros E. injection E as <-. assumption. }
  intros E. apply bind_eq_Ok in E as [nt [Hnt E]].
  apply bind_eq_Ok in E as [p [_ E]].
  eapply IH; [|exact E].
  apply Forall_app; split; [assumption|]. apply Forall_singleton.
  apply PegasusNote_init_Ok in Hnt as (h & s & _ & Hs & ->). simpl.
  eapply stroke_loop_no_pen_lift; [constructor| |exact Hs].
  unfold no_pen_lift. set_solver.
Qed.

End NoteListProofs.

(** ** Claims about the decoder *)

(** C1: decoding any buffer terminates.  [load_pegasus_notes_fuel] returns
    (a list or an exception) once it may run more rounds than the buffer
    has bytes, so [load_pegasus_notes] never diverges; and a round whose
    24-bit pointer is non-zero but not past the current offset (a cycle
    back to a visited record, or a non-increasing pointer) raises an error
    (Python slices [data[offset:pointer]] to an empty record, whose
    [data[3]] raises [IndexError]) instead of looping. *)
Theorem C1_load_terminates (md5 : list byte -> Z) :
  (forall fuel data, (length data < fuel)%nat ->
     returns (load_pegasus_notes_fuel md5 fuel data)) /\
  (forall data, returns (load_pegasus_notes md5 data)) /\
  (forall fuel data offset pointer notes,
     pointer <> 0%nat -> (pointer <= offset)%nat ->
     load_loop md5 (S fuel) data offset pointer notes = Raise IndexError).
Proof.
  assert (Hfuel : forall fuel data, (length data < fuel)%nat ->
            returns (load_pegasus_notes_fuel md5 fuel data)).
  { intros fuel data Hf. unfold load_pegasus_notes_fuel.
    apply returns_bind; [apply read_pointer_returns|].
    intros p Hp. apply read_pointer_Ok in Hp.
    apply load_loop_returns; lia. }
  split; [exact Hfuel|]. split.
  - intros data. apply Hfuel. lia.
  - intros. by apply load_loop_nonincreasing.
Qed.

(** C2 (counterexample): a buffer whose first record has next-pointer 20
    and then a 14-byte header, one point and one sentinel, followed by a
    record with next-pointer 0, does not decode to 2 records: the slice
    [data[0:20]] leaves 6 payload bytes and the point loop raises
    [struct.error]. *)
Lemma C2_pointer_20_raises :
  load_pegasus_notes (fun _ => 0)
    [x14; x00; x00; x9c; x03; x05; x01; x02; x03; x04; x01; x00; x00; x00;
     x01; x00; x02; x00; x00; x00; x00; x80; x00; x00; x00]
  = Raise StructError /\
  ~ (exists notes, load_pegasus_notes (fun _ => 0)
       [x14; x00; x00; x9c; x03; x05; x01; x02; x03; x04; x01; x00; x00; x00;
        x01; x00; x02; x00; x00; x00; x00; x80; x00; x00; x00]
       = Ok notes /\ length notes = 2%nat).
Proof.
  split; [vm_compute; reflexivity|].
  intros [notes [E _]]. vm_compute in E. discriminate.
Qed.

(** C2 (amended): a buffer whose first next-pointer is 20 never decodes:
    the 20-byte slice leaves 6 payload bytes (a [struct.error]), or the
    buffer is too short and a read past its end raises.  The layout the
    scenario describes (14-byte header, one point, one sentinel) takes 22
    bytes: with next-pointer 22, a header whose flags have bit 4 set, and a
    record with next-pointer 0 at offset 22, the buffer decodes to exactly
    one note, with one stroke of one point; the 0-pointer record only ends
    the list. *)
Theorem C2_two_record_scenario :
  (forall (md5 : list byte -> Z) data, read_pointer data 0 = Ok 20%nat ->
     exists e, load_pegasus_notes md5 data = Raise e) /\
  (forall (md5 : list byte -> Z) flags (hb : list byte) q tail,
     length hb = 10%nat -> Z.testbit (byte_val flags) 4 = true ->
     quad_bytes q <> sentinel ->
     exists n, load_pegasus_notes md5
       ([x16; x00; x00; flags] ++ hb ++ quad_bytes q ++ sentinel
        ++ [x00; x00; x00] ++ tail) = Ok [n] /\
     _strokes n = [[quad_xy q]]).
Proof.
  split.
  - intros md5 data Hp.
    unfold load_pegasus_notes, load_pegasus_notes_fuel. rewrite Hp.
    cbn [mbind result_bind]. rewrite load_loop_step by lia.
    destruct (PegasusNote_init md5 (slice data 0 20)) as [nt| e|] eqn:Ei;
      [| by eexists | by destruct (PegasusNote_init_returns md5 _ Ei)].
    cbn [mbind result_bind].
    apply PegasusNote_init_Ok in Ei as (h & s & Hh & Hs & _).
    apply decode_header_Ok_len in Hh. apply stroke_loop_Ok_len in Hs.
    unfold slice in *. rewrite length_drop in Hs.
    rewrite length_take, length_drop in Hh, Hs.
    assert (Hlt : (length data < 20)%nat).
    { destruct (decide (20 <= length data)%nat) as [Hge|]; [|lia].
      exfalso. replace (Nat.min (20 - 0) (length data - 0) - 14)%nat with 6%nat
        in Hs by lia. discriminate. }
    destruct (read_pointer data 20) as [p| e|] eqn:Er.
    + apply read_pointer_Ok in Er. lia.
    + by eexists.
    + by destruct (read_pointer_returns data 20).
  - intros md5 flags hb q tail Hhb Hb4 Hq.
    set (hdr := [x16; x00; x00; flags] ++ hb).
    assert (Hhdr : length hdr = 14%nat) by (subst hdr; simpl; lia).
    destruct (proj2 (decode_header_spec hdr flags eq_refl ltac:(lia)) Hb4)
      as (h & Hh & _).
    set (pre := hdr ++ quad_bytes q ++ sentinel).
    assert (Hpre : length pre = 22%nat).
    { subst pre. rewrite !length_app, Hhdr. by destruct q as [[[? ?] ?] ?]. }
    replace ([x16; x00; x00; flags] ++ hb ++ quad_bytes q ++ sentinel
             ++ [x00; x00; x00] ++ tail)
      with (pre ++ [x00; x00; x00] ++ tail)
      by (subst pre hdr; rewrite <- !app_assoc; reflexivity).
    assert (Hp0 : read_pointer (pre ++ [x00; x00; x00] ++ tail) 0 = Ok 22%nat)
      by (subst pre hdr; reflexivity).
    unfold load_pegasus_notes, load_pegasus_notes_fuel. rewrite Hp0.
    cbn [mbind result_bind]. rewrite load_loop_step by lia.
    rewrite <- Hpre, slice_prefix.
    unfold PegasusNote_init at 1. subst pre.
    rewrite decode_header_app, Hh by assumption. cbn [mbind result_bind].
    rewrite drop_app_length' by (symmetry; assumption).
    rewrite stroke_loop_quad, decide_False by assumption.
    change (stroke_loop sentinel [] ([] ++ [quad_xy q])) with
      (Ok [[quad_xy q]] : result (list stroke)). cbn [mbind result_bind].
    rewrite read_pointer_app. cbn [mbind result_bind mret result_ret].
    rewrite !length_app, Hhdr. destruct q as [[[? ?] ?] ?]. simpl.
    by eexists.
Qed.

(** C3 (counterexample): the flags byte [0b10011100] has bit 2 set, so the
    decoder reports [side_right = true], not [false]. *)
Lemma C3_flags_0x9c_side_right :
  decode_header [x16; x00; x00; x9c; x03; x05; x01; x02; x03; x04; x01; x00; x00; x00]
  = Ok {| note_contains_content := true; note_closed := true;
          note_closed_by_user := false; note_side_left := true;
          note_side_right := true; note_already_uploaded := true;
          pen_bat_low := true; hdr_note_id := 3; hdr_note_count := 5;
          hdr_timestamp := 67305985 |} /\
  ~ (exists h, decode_header
       [x16; x00; x00; x9c; x03; x05; x01; x02; x03; x04; x01; x00; x00; x00]
       = Ok h /\ note_side_right h = false).
Proof.
  split; [reflexivity|].
  intros [h [E F]]. vm_compute in E. injection E as <-. discriminate.
Qed.

(** C3 (amended): for a record of at least 14 bytes with flags byte
    [flags]: bit 4 clear raises [AssertionError]; otherwise bit 7 is
    has_content, bit 6 inverted is closed, bit 5 is closed_by_user, bit 3
    is side_left, bit 2 is side_right, bit 1 inverted is already_uploaded
    and bit 0 inverted is pen_battery_low.  For [0b10011100]:
    has_content, closed, side_left, side_right, already_uploaded and
    pen_battery_low are true and closed_by_user is false. *)
Theorem C3_header_flags :
  (forall data flags, data !! 3%nat = Some flags -> (14 <= length data)%nat ->
   (Z.testbit (byte_val flags) 4 = false -> decode_header data = Raise AssertionError) /\
   (Z.testbit (byte_val flags) 4 = true ->
    exists h, decode_header data = Ok h /\
      note_contains_content h = Z.testbit (byte_val flags) 7 /\
      note_closed h = negb (Z.testbit (byte_val flags) 6) /\
      note_closed_by_user h = Z.testbit (byte_val flags) 5 /\
      note_side_left h = Z.testbit (byte_val flags) 3 /\
      note_side_right h = Z.testbit (byte_val flags) 2 /\
      note_already_uploaded h = negb (Z.testbit (byte_val flags) 1) /\
      pen_bat_low h = negb (Z.testbit (byte_val flags) 0))) /\
  (forall data, data !! 3%nat = Some x9c -> (14 <= length data)%nat ->
   exists h, decode_header data = Ok h /\
     note_contains_content h = true /\ note_closed h = true /\
     note_closed_by_user h = false /\ note_side_left h = true /\
     note_side_right h = true /\ note_already_uploaded h = true /\
     pen_bat_low h = true).
Proof.
  split; [exact decode_header_spec|].
  intros data H3 Hlen.
  destruct (proj2 (decode_header_spec data x9c H3 Hlen) eq_refl)
    as (h & Hh & E7 & E6 & E5 & E3 & E2 & E1 & E0).
  exists h. rewrite E7, E6, E5, E3, E2, E1, E0. vm_compute. tauto.
Qed.

(** C4: the fingerprint of a decoded record is [md5(data[14:])], a 128-bit
    digest of the bytes from offset 14 on: two records that decode and
    agree from offset 14 on have the same fingerprint, whatever their
    headers. *)
Theorem C4_fingerprint_payload_only (md5 : list byte -> Z) :
  (forall l, 0 <= md5 l < 2 ^ 128) ->
  forall d1 d2 n1 n2, drop 14 d1 = drop 14 d2 ->
  PegasusNote_init md5 d1 = Ok n1 -> PegasusNote_init md5 d2 = Ok n2 ->
  _hash n1 = _hash n2 /\ _hash n1 = md5 (drop 14 d1) /\ 0 <= _hash n1 < 2 ^ 128.
Proof.
  intros Hmd5 d1 d2 n1 n2 Hd E1 E2.
  apply PegasusNote_init_Ok in E1 as (h1 & s1 & _ & _ & ->).
  apply PegasusNote_init_Ok in E2 as (h2 & s2 & _ & _ & ->).
  simpl. rewrite Hd. auto.
Qed.

Lemma C4_witness :
  exists n1 n2,
    PegasusNote_init (fun _ => 0)
      [x16; x00; x00; x9c; x03; x05; x01; x02; x03; x04; x01; x00; x00; x00;
       x01; x00; x02; x00; x00; x00; x00; x80] = Ok n1 /\
    PegasusNote_init (fun _ => 0)
      [x2a; x00; x00; xd0; x07; x09; x0a; x0b; x0c; x0d; x02; x05; x06; x07;
       x01; x00; x02; x00; x00; x00; x00; x80] = Ok n2 /\
    _hash n1 = _hash n2 /\ 0 <= _hash n1 < 2 ^ 128.
Proof.
  do 2 eexists. split; [reflexivity|]. split; [reflexivity|].
  destruct (C4_fingerprint_payload_only (fun _ => 0)
              ltac:(intros l; split; [lia|reflexivity])
              [x16; x00; x00; x9c; x03; x05; x01; x02; x03; x04; x01; x00; x00; x00;
               x01; x00; x02; x00; x00; x00; x00; x80]
              [x2a; x00; x00; xd0; x07; x09; x0a; x0b; x0c; x0d; x02; x05; x06; x07;
               x01; x00; x02; x00; x00; x00; x00; x80]
              _ _ eq_refl eq_refl eq_refl) as (Heq & _ & Hb).
  split; assumption.
Defined.

(** C5: a record whose payload is some sentinel-terminated strokes followed
    by points with no final sentinel decodes to exactly the terminated
    strokes: the trailing open stroke is dropped. *)
Theorem C5_trailing_stroke_dropped (md5 : list byte -> Z) hdr flags ss trailing :
  length hdr = 14%nat -> hdr !! 3%nat = Some flags ->
  Z.testbit (byte_val flags) 4 = true ->
  Forall (Forall (fun q => quad_bytes q <> sentinel)) ss ->
  Forall (fun q => quad_bytes q <> sentinel) trailing ->
  exists n, PegasusNote_init md5
              (hdr ++ encode_strokes ss ++ concat (map quad_bytes trailing)) = Ok n /\
            _strokes n = map (map quad_xy) ss.
Proof.
  intros Hl H3 Hb4 Hss Htr.
  destruct (proj2 (decode_header_spec hdr flags H3 ltac:(lia)) Hb4) as (h & Hh & _).
  unfold PegasusNote_init. rewrite decode_header_app, Hh by assumption.
  cbn [mbind result_bind].
  rewrite drop_app_length' by (symmetry; assumption).
  rewrite stroke_loop_encode by assumption.
  rewrite <- (app_nil_r (concat (map quad_bytes trailing))).
  rewrite stroke_loop_points by assumption.
  simpl. by eexists.
Qed.

Lemma C5_witness :
  exists n,
    PegasusNote_init (fun _ => 0)
      ([x16; x00; x00; x9c; x03; x05; x01; x02; x03; x04; x01; x00; x00; x00]
       ++ encode_strokes [[(x01, x00, x02, x00)]]
       ++ concat (map quad_bytes [(x05, x00, x06, x00)])) = Ok n /\
    _strokes n = map (map quad_xy) [[(x01, x00, x02, x00)]].
Proof.
  apply (C5_trailing_stroke_dropped (fun _ => 0)
           [x16; x00; x00; x9c; x03; x05; x01; x02; x03; x04; x01; x00; x00; x00]
           x9c [[(x01, x00, x02, x00)]] [(x05, x00, x06, x00)]);
    [reflexivity | reflexivity | reflexivity | | ].
  - repeat constructor; discriminate.
  - repeat constructor; discriminate.
Defined.

(** C10: no stroke of any decoded note contains the point [(0, -32768)]:
    its only 4-byte encoding is the sentinel, which always closes a stroke. *)
Theorem C10_no_pen_lift_point (md5 : list byte -> Z) data notes :
  load_pegasus_notes md5 data = Ok notes ->
  forall n s, n ∈ notes -> s ∈ _strokes n -> (0, -32768) ∉ s.
Proof.
  unfold load_pegasus_notes, load_pegasus_notes_fuel. intros E.
  apply bind_eq_Ok in E as [p [_ E]].
  apply load_loop_no_pen_lift in E; [|constructor].
  intros n s Hn Hs.
  rewrite Forall_forall in E. specialize (E n Hn).
  rewrite Forall_forall in E. exact (E s Hs).
Qed.

Lemma C10_witness :
  exists notes,
    load_pegasus_notes (fun _ => 0)
      [x16; x00; x00; x9c; x03; x05; x01; x02; x03; x04; x01; x00; x00; x00;
       x00; x00; x00; x80; x00; x00; x00; x80; x00; x00; x00] = Ok notes /\
    forall n s, n ∈ notes -> s ∈ _strokes n -> (0, -32768) ∉ s.
Proof.
  eexists. split; [reflexivity|].
  apply (C10_no_pen_lift_point (fun _ => 0)
           [x16; x00; x00; x9c; x03; x05; x01; x02; x03; x04; x01; x00; x00; x00;
            x00; x00; x00; x80; x00; x00; x00; x80; x00; x00; x00]).
  reflexivity.
Defined.

Lemma C2_witness :
  (exists e, load_pegasus_notes (fun _ => 0)
     [x14; x00; x00; x9c; x03; x05; x01; x02; x03; x04; x01; x00; x00; x00;
      x01; x00; x02; x00; x00; x00; x00; x80; x00; x00; x00] = Raise e) /\
  (exists n, load_pegasus_notes (fun _ => 0)
     ([x16; x00; x00; x9c] ++ [x03; x05; x01; x02; x03; x04; x01; x00; x00; x00]
      ++ quad_bytes (x01, x00, x02, x00) ++ sentinel ++ [x00; x00; x00] ++ [])
     = Ok [n] /\ _strokes n = [[quad_xy (x01, x00, x02, x00)]]).
Proof.
  split.
  - apply (proj1 C2_two_record_scenario (fun _ => 0)). reflexivity.
  - apply (proj2 C2_two_record_scenario (fun _ => 0) x9c
             [x03; x05; x01; x02; x03; x04; x01; x00; x00; x00]
             (x01, x00, x02, x00) []);
      [reflexivity | reflexivity | discriminate].
Defined.

Lemma C3_witness :
  (exists h, decode_header
     [x16; x00; x00; x9c; x03; x05; x01; x02; x03; x04; x01; x00; x00; x00] = Ok h /\
     note_contains_content h = true /\ note_closed h = true /\
     note_closed_by_user h = false /\ note_side_left h = true /\
     note_side_right h = true /\ note_already_uploaded h = true /\
     pen_bat_low h = true) /\
  decode_header
     [x16; x00; x00; x8c; x03; x05; x01; x02; x03; x04; x01; x00; x00; x00]
   = Raise AssertionError.
Proof.
  split.
  - apply (proj2 C3_header_flags); [reflexivity | simpl; lia].
  - apply (proj1 (proj1 C3_header_flags
             [x16; x00; x00; x8c; x03; x05; x01; x02; x03; x04; x01; x00; x00; x00]
             x8c eq_refl ltac:(simpl; lia))).
    reflexivity.
Defined.

(** ** Claims about the device session *)

(** C8: [_dev_read] returns [None] exactly when its loop ended with no byte
    received; a loop that ended (deadline passed or read interrupted) with
    1 to 63 bytes raises [AssertionError] instead of returning them; and a
    returned frame has exactly 64 bytes. *)
Theorem C8_dev_read_outcomes (timeout : Z) (tr : trace) :
  (dev_read_result timeout tr = Ok None <-> dev_read_loop timeout [] tr = Ok []) /\
  (forall r, dev_read_loop timeout [] tr = Ok r -> (0 < length r < 64)%nat ->
     dev_read_result timeout tr = Raise AssertionError) /\
  (forall r, dev_read_result timeout tr = Ok (Some r) -> length r = 64%nat).
Proof.
  unfold dev_read_result.
  destruct (dev_read_loop timeout [] tr) as [r| e|]; cbn [mbind result_bind];
    [| split; [split; discriminate|split; intros; discriminate]
     | split; [split; discriminate|split; intros; discriminate]].
  split; [|split].
  - destruct (decide (length r = 0%nat)) as [E|E].
    + apply nil_length_inv in E. subst. tauto.
    + unfold py_assert. destruct (Nat.eqb _ _); cbn [mbind result_bind];
        split; intros H; try discriminate.
      all: injection H as ->; simpl in E; lia.
  - intros r' H Hl. injection H as <-.
    rewrite decide_False by lia. unfold py_assert.
    replace (Nat.eqb (length r) 64) with false; [reflexivity|].
    symmetry. apply Nat.eqb_neq. lia.
  - intros r' H. destruct (decide _); [discriminate|].
    unfold py_assert in H. destruct (Nat.eqb _ _) eqn:E; [|discriminate].
    injection H as <-. by apply Nat.eqb_eq.
Qed.

Lemma dev_read_result_len timeout tr m :
  dev_read_result timeout tr = Ok (Some m) -> length m = 64%nat.
Proof.
  unfold dev_read_result. intros H. apply bind_eq_Ok in H as [r [_ H]].
  destruct (decide _); [discriminate|].
  unfold py_assert in H. destruct (Nat.eqb _ _) eqn:E; [|discriminate].
  injection H as <-. by apply Nat.eqb_eq.
Qed.

Lemma ok_trace_read f :
  length f = 64%nat -> dev_read_result default_timeout (ok_trace f) = Ok (Some f).
Proof.
  intros Hf. unfold dev_read_result, ok_trace. simpl.
  rewrite Hf. simpl. rewrite Hf. reflexivity.
Qed.

(** C9 (counterexample): the pad version is a big-endian u16 (format
    [H] at bytes 7-8), so [_get_version] accepts this reply, whose byte 8 is
    not [0x0e], and reports pad version 256, which is no u8. *)
Lemma C9_pad_version_is_u16 :
  _get_version {| dev_written := [];
                  dev_traces := [ok_trace ([x80; xa9; x01; x00; x02; x00; x02;
                                            x01; x00; x0e; x01] ++ replicate 53 x00)] |}
  = Ok ({| _product_id := 1; _version := 2; _pad_version := 256; _mode := 1 |},
        {| dev_written := [[x02; x02; x95; x95; x00; x00; x00; x00]];
           dev_traces := [] |}) /\
  ~ (0 <= 256 < 256).
Proof. split; [vm_compute; reflexivity | lia]. Qed.
(** C9 (amended): [_get_version] writes the command frame for opcode
    [0x95 0x95] and parses the reply with [>BBBHHHBB]: marker bytes 0-1
    ([0x80 0xa9]), product id u8 at byte 2, two big-endian u16 versions at
    bytes 3-4 and 5-6 that must be equal, a big-endian u16 pad version at
    bytes 7-8, marker [0x0e] at byte 9 and mode u8 at byte 10; a marker
    mismatch or differing versions raise [AssertionError]. *)
Theorem C9_get_version_layout w tr rest m :
  dev_read_result default_timeout tr = Ok (Some m) ->
  let at_ i := byte_val (nth i m x00) in
  _get_version {| dev_written := w; dev_traces := tr :: rest |} =
  if (at_ 0%nat =? 0x80) && (at_ 1%nat =? 0xa9) && (at_ 9%nat =? 0x0e)
     && (be16 (at_ 3%nat) (at_ 4%nat) =? be16 (at_ 5%nat) (at_ 6%nat))
  then Ok ({| _product_id := at_ 2%nat; _version := be16 (at_ 3%nat) (at_ 4%nat);
              _pad_version := be16 (at_ 7%nat) (at_ 8%nat); _mode := at_ 10%nat |},
           {| dev_written := w ++ [[x02; x02; x95; x95; x00; x00; x00; x00]];
              dev_traces := rest |})
  else Raise AssertionError.
Proof.
  intros H at_. pose proof (dev_read_result_len _ _ _ H) as Hm.
  unfold _get_version, _dev_write_command, _dev_read.
  cbv [mbind dev_bind mret dev_ret lift result_bind result_ret dev_traces dev_written].
  cbn [length Byte.of_nat].
  rewrite H.
  unfold version_unpack_from. rewrite decide_False by lia.
  subst at_. cbn [vs_b0 vs_b1 vs_b9 vs_version1 vs_version2 vs_product_id
                  vs_pad_version vs_mode]. unfold py_assert.
  destruct (byte_val (nth 0 m x00) =? 128); [|reflexivity].
  destruct (byte_val (nth 1 m x00) =? 169); [|reflexivity].
  destruct (byte_val (nth 9 m x00) =? 14); [|reflexivity].
  destruct (be16 _ _ =? be16 _ _); reflexivity.
Qed.

Lemma C9_witness :
  dev_read_result default_timeout
    (ok_trace ([x80; xa9; x01; x00; x02; x00; x02; x00; x03; x0e; x01]
               ++ replicate 53 x00))
  = Ok (Some ([x80; xa9; x01; x00; x02; x00; x02; x00; x03; x0e; x01]
              ++ replicate 53 x00)) /\
  _get_version {| dev_written := [];
                  dev_traces := [ok_trace ([x80; xa9; x01; x00; x02; x00; x02;
                                            x00; x03; x0e; x01] ++ replicate 53 x00)] |}
  = Ok ({| _product_id := 1; _version := 2; _pad_version := 3; _mode := 1 |},
        {| dev_written := [[x02; x02; x95; x95; x00; x00; x00; x00]];
           dev_traces := [] |}).
Proof.
  split; [reflexivity|].
  pose proof (C9_get_version_layout []
                (ok_trace ([x80; xa9; x01; x00; x02; x00; x02; x00; x03; x0e; x01]
                           ++ replicate 53 x00)) []
                ([x80; xa9; x01; x00; x02; x00; x02; x00; x03; x0e; x01]
                 ++ replicate 53 x00) ltac:(reflexivity)) as E.
  cbv zeta in E. rewrite E. reflexivity.
Defined.

(** ** Bulk download *)

Lemma byte_val_of_Z z : 0 <= z < 256 -> byte_val (byte_of_Z z) = z.
Proof.
  intros Hz. unfold byte_of_Z.
  pose proof (Byte.to_of_N_option_map (Z.to_N z)) as E.
  destruct (Byte.of_N (Z.to_N z)) as [b|]; simpl in E.
  - destruct (N.leb (Z.to_N z) 255); [|discriminate].
    injection E as E. unfold byte_val. rewrite E. apply Z2N.id. lia.
  - destruct (N.leb (Z.to_N z) 255) eqn:L; [discriminate|].
    apply N.leb_gt in L. lia.
Qed.

Lemma length_frame_of i p : length (frame_of i p) = S (S (length p)).
Proof. reflexivity. Qed.

Lemma packet_id_frame_of i p : 0 <= i < 65536 -> packet_id (frame_of i p) = Ok i.
Proof.
  intros Hi. unfold packet_id, frame_of, index. simpl.
  rewrite !byte_val_of_Z.
  - f_equal. rewrite Z.shiftl_mul_pow2 by lia. change (2 ^ 8) with 256.
    rewrite Z.mul_comm. symmetry. apply Z.div_mod. lia.
  - apply Z.mod_pos_bound. lia.
  - split; [apply Z.div_pos; lia|]. apply Z.div_lt_upper_bound; lia.
Qed.

Lemma download_header_reply n pad :
  0 <= n < 65536 -> length pad = 55%nat ->
  download_header (Some (download_reply n pad)) = Ok n.
Proof.
  intros Hn Hpad. unfold download_header, download_reply, check_byte, reply_index, index.
  simpl. rewrite !byte_val_of_Z.
  - f_equal. rewrite Z.shiftl_mul_pow2 by lia. change (2 ^ 8) with 256.
    rewrite Z.mul_comm. symmetry. apply Z.div_mod. lia.
  - apply Z.mod_pos_bound. lia.
  - split; [apply Z.div_pos; lia|]. apply Z.div_lt_upper_bound; lia.
Qed.

Lemma download_loop_stop fuel n packets s :
  ~ (Z.of_nat (size packets) < n) -> download_loop (S fuel) n packets s = Ok (packets, s).
Proof. intros H. simpl. by rewrite decide_False. Qed.

Lemma download_loop_step fuel n packets s tr trs :
  Z.of_nat (size packets) < n -> dev_traces s = tr :: trs ->
  download_loop (S fuel) n packets s =
  match dev_read_result default_timeout tr with
  | Ok None => Ok (packets, {| dev_written := dev_written s; dev_traces := trs |})
  | Ok (Some r) =>
      match packet_id r with
      | Ok pid => download_loop fuel n (<[pid := drop 2 r]> packets)
                    {| dev_written := dev_written s; dev_traces := trs |}
      | Raise e => Raise e
      | Diverge => Diverge
      end
  | Raise e => Raise e
  | Diverge => Diverge
  end.
Proof.
  intros H Htr. simpl. rewrite decide_True by assumption.
  cbv [mbind dev_bind mret dev_ret lift result_bind result_ret _dev_read].
  rewrite Htr. destruct (dev_read_result default_timeout tr) as [[r|]| |]; try reflexivity.
  destruct (packet_id r); reflexivity.
Qed.

(** All [ids] distinct and fresh: the loop reads exactly one frame per id. *)
Lemma download_loop_all (pl : Z -> list byte) (n : Z) :
  (forall i, length (pl i) = 62%nat) ->
  forall ids (m : gmap Z (list byte)) fuel w others,
  NoDup ids -> Forall (fun i => 0 <= i < 65536 /\ m !! i = None) ids ->
  Z.of_nat (size m + length ids) = n -> (length ids < fuel)%nat ->
  exists m',
    download_loop fuel n m
      {| dev_written := w;
         dev_traces := map (fun i => ok_trace (frame_of i (pl i))) ids ++ others |}
    = Ok (m', {| dev_written := w; dev_traces := others |}) /\
    Z.of_nat (size m') = n /\
    (forall j, m' !! j = if decide (j ∈ ids) then Some (pl j) else m !! j).
Proof.
  intros Hpl ids. induction ids as [|i ids IH];
    intros m fuel w others Hnd Hids Hsize Hfuel;
    (destruct fuel as [|fuel]; [simpl in Hfuel; lia|]).
  - exists m. rewrite download_loop_stop by (simpl in Hsize; lia).
    split; [reflexivity|]. split; [simpl in Hsize; lia|].
    intros j. rewrite decide_False; [reflexivity|]. apply not_elem_of_nil.
  - inversion Hnd as [|? ? Hi Hnd'].
    inversion Hids as [|? ? [Hir Him] Hids'].
    simpl in Hsize, Hfuel.
    rewrite (download_loop_step _ _ _ _ (ok_trace (frame_of i (pl i)))
               (map (fun i => ok_trace (frame_of i (pl i))) ids ++ others))
      by (simpl; lia || reflexivity).
    rewrite ok_trace_read by (rewrite length_frame_of, Hpl; reflexivity).
    rewrite packet_id_frame_of by assumption.
    change (drop 2 (frame_of i (pl i))) with (pl i). simpl.
    destruct (IH (<[i := pl i]> m) fuel w others) as (m' & Hrun & Hsz & Hlk);
      [assumption | | | lia |].
    + apply Forall_forall. intros j Hj.
      rewrite Forall_forall in Hids'. destruct (Hids' j Hj) as [Hjr Hjm].
      split; [assumption|]. rewrite lookup_insert_ne; [assumption|].
      intros ->. apply Hi. by apply list_elem_of_In.
    + rewrite map_size_insert_None by assumption. lia.
    + exists m'. split; [exact Hrun|]. split; [exact Hsz|].
      intros j. rewrite Hlk.
      destruct (decide (j = i)) as [->|Hne].
      * rewrite decide_False by (intros Hin; apply Hi; by apply list_elem_of_In).
        rewrite decide_True by apply list_elem_of_here.
        by rewrite lookup_insert_eq.
      * rewrite lookup_insert_ne by congruence.
        destruct (decide (j ∈ ids)) as [Hj|Hj];
          [rewrite decide_True by (by apply list_elem_of_further)|
           rewrite decide_False by (rewrite elem_of_cons; tauto)];
          reflexivity.
Qed.

Lemma collect_all (packets : gmap Z (list byte)) (f : nat -> list byte) ids :
  (forall i, i ∈ ids -> packets !! (Z.of_nat i + 1) = Some (f i)) ->
  collect packets ids = Ok (map f ids).
Proof.
  induction ids as [|i ids IH]; intros H; [reflexivity|].
  simpl. rewrite H by apply list_elem_of_here.
  rewrite IH; [reflexivity|]. intros j Hj. apply H. by apply list_elem_of_further.
Qed.

Lemma length_download_reply n pad : length (download_reply n pad) = (9 + length pad)%nat.
Proof. reflexivity. Qed.

Lemma download_complete (N : nat) (pl : Z -> list byte) (pkts : list Z) pad w rest :
  Z.of_nat N < 65536 -> length pad = 55%nat -> (forall i, length (pl i) = 62%nat) ->
  pkts ≡ₚ map Z.of_nat (seq 1 N) ->
  download_data (bulk_session w N pad pl pkts rest) =
  Ok (concat (map (fun i => pl (Z.of_nat i)) (seq 1 N)),
      {| dev_written := w ++ [cmd_frame [xb5]; cmd_frame [xb6]; cmd_frame [xb6]];
         dev_traces := rest |}).
Proof.
  intros HN Hpad Hpl Hperm.
  assert (Hnd : NoDup pkts).
  { rewrite Hperm. apply NoDup_ListNoDup.
    apply Finite.Injective_map_NoDup; [intros ? ? ?; lia|apply seq_NoDup]. }
  assert (Hin : forall j, j ∈ pkts <-> exists k, j = Z.of_nat k /\ (1 <= k < S N)%nat).
  { intros j. rewrite Hperm, list_elem_of_In, in_map_iff.
    split; intros [k [Hk1 Hk2]]; exists k; rewrite in_seq in *; split; auto; lia. }
  destruct (download_loop_all pl (Z.of_nat N) Hpl pkts ∅ (S (length (map (fun i => ok_trace (frame_of i (pl i))) pkts ++ rest)))
              ((w ++ [cmd_frame [xb5]]) ++ [cmd_frame [xb6]]) rest)
    as (m' & Hrun & Hsz & Hlk).
  { exact Hnd. }
  { apply Forall_forall. intros j Hj. apply Hin in Hj as [k [-> Hk]].
    split; [lia|]. apply lookup_empty. }
  { rewrite map_size_empty, Hperm, length_map, length_seq. reflexivity. }
  { rewrite length_app, length_map. lia. }
  unfold download_data, bulk_session.
  cbv [mbind dev_bind mret dev_ret lift result_bind result_ret get_state
       _dev_read _dev_write_command dev_traces dev_written].
  cbn [length Byte.of_nat].
  rewrite ok_trace_read by (rewrite length_download_reply, Hpad; reflexivity).
  rewrite download_header_reply by (assumption || lia).
  change ([x02; x01] ++ [xb5] ++ replicate (6 - 1)%nat x00) with (cmd_frame [xb5]).
  change ([x02; x01] ++ [xb6] ++ replicate (6 - 1)%nat x00) with (cmd_frame [xb6]).
  rewrite Hrun. cbv [py_assert]. rewrite Hsz, Z.eqb_refl, Nat2Z.id.
  rewrite (collect_all m' (fun i => pl (Z.of_nat (S i)))).
  - cbv [dev_written dev_traces]. rewrite <- seq_shift, map_map.
    rewrite <- !app_assoc. reflexivity.
  - intros i Hi. rewrite Hlk, Nat2Z.inj_succ, decide_True; [reflexivity|].
    apply Hin. exists (S i). rewrite list_elem_of_In, in_seq in Hi. split; lia.
Qed.


(** C6: for N packets whose ids, in any arrival order, are a permutation of
    1..N, [download_data] returns the same buffer as for in-order delivery:
    the 62-byte payloads concatenated in increasing id order. *)
Theorem C6_reassembly_order_independent (N : nat) (pl : Z -> list byte)
    (pkts : list Z) (pad : list byte) w rest :
  Z.of_nat N < 65536 -> length pad = 55%nat -> (forall i, length (pl i) = 62%nat) ->
  pkts ≡ₚ map Z.of_nat (seq 1 N) ->
  download_data (bulk_session w N pad pl pkts rest) =
  download_data (bulk_session w N pad pl (map Z.of_nat (seq 1 N)) rest) /\
  download_data (bulk_session w N pad pl pkts rest) =
  Ok (concat (map (fun i => pl (Z.of_nat i)) (seq 1 N)),
      {| dev_written := w ++ [cmd_frame [xb5]; cmd_frame [xb6]; cmd_frame [xb6]];
         dev_traces := rest |}).
Proof.
  intros HN Hpad Hpl Hperm.
  rewrite !download_complete by (assumption || reflexivity). split; reflexivity.
Qed.

Lemma C6_witness :
  download_data (bulk_session [] 3 (replicate 55 x00)
                   (fun i => replicate 62 (byte_of_Z i)) [3; 1; 2] []) =
  download_data (bulk_session [] 3 (replicate 55 x00)
                   (fun i => replicate 62 (byte_of_Z i)) (map Z.of_nat (seq 1 3)) []) /\
  download_data (bulk_session [] 3 (replicate 55 x00)
                   (fun i => replicate 62 (byte_of_Z i)) [3; 1; 2] []) =
  Ok (concat (map (fun i => replicate 62 (byte_of_Z (Z.of_nat i))) (seq 1 3)),
      {| dev_written := [] ++ [cmd_frame [xb5]; cmd_frame [xb6]; cmd_frame [xb6]];
         dev_traces := [] |}).
Proof.
  apply (C6_reassembly_order_independent 3 (fun i => replicate 62 (byte_of_Z i))
           [3; 1; 2] (replicate 55 x00) [] []).
  - lia.
  - reflexivity.
  - intros i. apply length_replicate.
  - simpl. solve_Permutation.
Defined.

Section Shortfall.
Variable tr0 : trace.
Hypothesis Htr0 : dev_read_result default_timeout tr0 = Ok None.

(** Fewer distinct ids than announced: the loop reads every frame, then
    the empty read [tr0] ends it short. *)
Lemma download_loop_short (n : nat) :
  forall (fr : list (Z * list byte)) (m : gmap Z (list byte)) fuel w others,
  Forall (fun ip => 0 <= ip.1 < 65536 /\ length ip.2 = 62%nat) fr ->
  (size (dom m ∪ list_to_set (map fst fr)) < n)%nat ->
  (length fr < fuel)%nat ->
  exists m',
    download_loop fuel (Z.of_nat n) m
      {| dev_written := w;
         dev_traces := map (fun ip => ok_trace (frame_of ip.1 ip.2)) fr ++ tr0 :: others |}
    = Ok (m', {| dev_written := w; dev_traces := others |}) /\
    (size m' < n)%nat.
Proof.
  induction fr as [|[i p] fr IH]; intros m fuel w others Hfr Hsz Hfuel;
    (destruct fuel as [|fuel]; [simpl in Hfuel; lia|]);
    (assert (Hm : (size m < n)%nat);
     [ rewrite <- size_dom;
       eapply Nat.le_lt_trans; [apply subseteq_size, union_subseteq_l|exact Hsz]
     | ]).
  - exists m.
    rewrite (download_loop_step _ _ _ _ tr0 others) by (simpl; lia || reflexivity).
    rewrite Htr0. split; [reflexivity|assumption].
  - inversion Hfr as [|? ? [Hi Hp] Hfr']. simpl in Hfuel, Hi, Hp.
    rewrite (download_loop_step _ _ _ _ (ok_trace (frame_of i p))
               (map (fun ip => ok_trace (frame_of ip.1 ip.2)) fr ++ tr0 :: others))
      by (simpl; lia || reflexivity).
    rewrite ok_trace_read by (rewrite length_frame_of, Hp; reflexivity).
    rewrite packet_id_frame_of by assumption.
    change (drop 2 (frame_of i p)) with p. simpl.
    apply IH; [assumption| |lia].
    replace (dom (<[i:=p]> m) ∪ list_to_set (map fst fr))
      with (dom m ∪ list_to_set (map fst ((i, p) :: fr))); [exact Hsz|].
    rewrite dom_insert_L. simpl. set_solver.
Qed.

End Shortfall.

(** C7: when the frames delivered carry fewer distinct packet ids than the
    announced count and the next read returns nothing, [download_data]
    raises [AssertionError] ([assert len(packets) == number_of_packets])
    instead of returning a short buffer. *)
Theorem C7_shortfall_raises (N : nat) (pad : list byte)
    (fr : list (Z * list byte)) (tr0 : trace) w rest :
  Z.of_nat N < 65536 -> length pad = 55%nat ->
  Forall (fun ip => 0 <= ip.1 < 65536 /\ length ip.2 = 62%nat) fr ->
  (size (list_to_set (map fst fr) : gset Z) < N)%nat ->
  dev_read_result default_timeout tr0 = Ok None ->
  download_data (bulk_session_short w N pad fr tr0 rest) = Raise AssertionError.
Proof.
  intros HN Hpad Hfr Hsz Htr0.
  destruct (download_loop_short tr0 Htr0 N fr ∅
              (S (length (map (fun ip => ok_trace (frame_of ip.1 ip.2)) fr ++ tr0 :: rest)))
              ((w ++ [cmd_frame [xb5]]) ++ [cmd_frame [xb6]]) rest)
    as (m' & Hrun & Hm').
  { assumption. }
  { by rewrite dom_empty_L, union_empty_l_L. }
  { rewrite length_app, length_map. simpl. lia. }
  unfold download_data, bulk_session_short.
  cbv [mbind dev_bind mret dev_ret lift result_bind result_ret get_state
       _dev_read _dev_write_command dev_traces dev_written].
  cbn [length Byte.of_nat].
  rewrite ok_trace_read by (rewrite length_download_reply, Hpad; reflexivity).
  rewrite download_header_reply by (assumption || lia).
  change ([x02; x01] ++ [xb5] ++ replicate (6 - 1)%nat x00) with (cmd_frame [xb5]).
  change ([x02; x01] ++ [xb6] ++ replicate (6 - 1)%nat x00) with (cmd_frame [xb6]).
  rewrite Hrun. cbv [py_assert].
  replace (Z.of_nat (size m') =? Z.of_nat N) with false; [reflexivity|].
  symmetry. apply Z.eqb_neq. lia.
Qed.

Lemma C7_witness :
  download_data (bulk_session_short [] 3 (replicate 55 x00)
                   [(1, replicate 62 x07); (2, replicate 62 x08); (1, replicate 62 x09)]
                   [(0, RIntr)] [])
  = Raise AssertionError.
Proof.
  apply C7_shortfall_raises.
  - lia.
  - reflexivity.
  - repeat constructor; simpl; lia.
  - vm_compute. lia.
  - reflexivity.
Defined.

(** * Further properties of the decoder *)

Lemma length_ptr24 n : length (ptr24 n) = 3%nat.
Proof. reflexivity. Qed.

Lemma read_pointer_ptr24 n r :
  Z.of_nat n < 2 ^ 24 -> read_pointer (ptr24 n ++ r) 0 = Ok n.
Proof.
  intros Hn. unfold read_pointer, ptr24, index. simpl.
  rewrite !byte_val_of_Z by (apply Z.mod_pos_bound; lia).
  set (z := Z.of_nat n) in *.
  assert (E : z mod 256 + Z.shiftl (z / 256 mod 256) 8 + Z.shiftl (z / 65536 mod 256) 16 = z).
  { rewrite !Z.shiftl_mul_pow2 by lia. change (2 ^ 8) with 256. change (2 ^ 16) with 65536.
    change (2 ^ 24) with 16777216 in Hn.
    assert (Hz : 0 <= z) by lia.
    rewrite (Z.mod_small (z / 65536) 256)
      by (split; [apply Z.div_pos; lia | apply Z.div_lt_upper_bound; lia]).
    replace 65536 with (256 * 256) by reflexivity. rewrite <- Z.div_div by lia.
    pose proof (Z.div_mod z 256). pose proof (Z.div_mod (z / 256) 256). lia. }
  f_equal. rewrite E. subst z. apply Nat2Z.id.
Qed.

Lemma slice_mid pre mid post :
  slice (pre ++ mid ++ post) (length pre) (length pre + length mid) = mid.
Proof.
  unfold slice. replace (length pre + length mid - length pre)%nat with (length mid) by lia.
  rewrite drop_app_length. apply take_app_length.
Qed.

Lemma decode_header_note_id data h b :
  decode_header data = Ok h -> data !! 4%nat = Some b -> hdr_note_id h = byte_val b.
Proof.
  unfold decode_header. intros H H4.
  apply bind_eq_Ok in H as [fl [_ H]].
  apply bind_eq_Ok in H as [u [_ H]].
  apply bind_eq_Ok in H as [nid [Hn H]].
  repeat (apply bind_eq_Ok in H; destruct H as [? [_ H]]).
  cbv [mret result_ret] in H. injection H as <-. simpl.
  unfold index in Hn. rewrite H4 in Hn. by injection Hn.
Qed.

Lemma length_build_buffer start recs :
  (3 * length recs + 3 <= length (build_buffer start recs))%nat.
Proof.
  revert start. induction recs as [|[h ss] recs IH]; intros start; simpl; [lia|].
  rewrite ?length_app, ?length_ptr24. specialize (IH (start + 3 + length h + length (encode_strokes ss))%nat).
  lia.
Qed.

Section BuildProofs.
Variable md5 : list byte -> Z.

Lemma PegasusNote_init_record next h ss :
  wf_record (h, ss) ->
  PegasusNote_init md5 (ptr24 next ++ h ++ encode_strokes ss) = Ok (built_note md5 (h, ss)).
Proof.
  intros (Hh & (f & Hf & Hb4) & Hss). simpl in Hh, Hf, Hss.
  assert (H3 : (ptr24 next ++ h) !! 3%nat = Some f).
  { rewrite lookup_app_r; rewrite length_ptr24; [exact Hf|lia]. }
  assert (Hl : length (ptr24 next ++ h) = 14%nat) by (rewrite length_app, length_ptr24; lia).
  destruct (proj2 (decode_header_spec _ f H3 ltac:(lia)) Hb4) as (hd & Hhd & _).
  assert (is_Some (h !! 1%nat)) as [b Hb1] by (apply lookup_lt_is_Some_2; lia).
  assert (Hid : hdr_note_id hd = byte_val b).
  { apply (decode_header_note_id _ _ _ Hhd).
    rewrite lookup_app_r; rewrite length_ptr24; [exact Hb1|lia]. }
  unfold PegasusNote_init. rewrite app_assoc, decode_header_app, Hhd by exact Hl.
  cbn [mbind result_bind].
  rewrite drop_app_length' by (symmetry; exact Hl).
  rewrite <- (app_nil_r (encode_strokes ss)), stroke_loop_encode by exact Hss.
  cbn. rewrite app_nil_r. unfold built_note. simpl.
  rewrite Hid, (nth_lookup_Some h 1 x00 b Hb1). reflexivity.
Qed.

Lemma load_loop_build recs : forall pre notes fuel,
  Forall wf_record recs -> (length recs < fuel)%nat ->
  Z.of_nat (length (pre ++ build_buffer (length pre) recs)) < 2 ^ 24 ->
  exists p, read_pointer (build_buffer (length pre) recs) 0 = Ok p /\
    load_loop md5 fuel (pre ++ build_buffer (length pre) recs) (length pre) p notes
    = Ok (notes ++ map (built_note md5) recs).
Proof.
  induction recs as [|[h ss] recs IH]; intros pre notes fuel Hwf Hfuel Hlen;
    (destruct fuel as [|fuel]; [simpl in Hfuel; lia|]).
  - exists 0%nat. split; [reflexivity|]. simpl. by rewrite app_nil_r.
  - inversion Hwf as [|? ? Hr Hwf']; subst.
    set (next := (length pre + 3 + length h + length (encode_strokes ss))%nat).
    assert (Hb : build_buffer (length pre) ((h, ss) :: recs)
                 = ptr24 next ++ h ++ encode_strokes ss ++ build_buffer next recs)
      by reflexivity.
    rewrite Hb in *.
    set (pre' := pre ++ ptr24 next ++ h ++ encode_strokes ss).
    assert (Hpre' : length pre' = next)
      by (subst pre' next; rewrite !length_app, length_ptr24; lia).
    assert (Hdata : pre ++ ptr24 next ++ h ++ encode_strokes ss ++ build_buffer next recs
                    = pre' ++ build_buffer (length pre') recs)
      by (subst pre'; rewrite Hpre', <- !app_assoc; reflexivity).
    rewrite Hdata in *.
    assert (Hnext : Z.of_nat next < 2 ^ 24).
    { rewrite length_app, Hpre' in Hlen. lia. }
    destruct (IH pre' (notes ++ [built_note md5 (h, ss)]) fuel Hwf' ltac:(simpl in Hfuel; lia) Hlen)
      as (p' & Hp' & Hrun).
    exists next. split; [by apply read_pointer_ptr24|].
    rewrite load_loop_step by (subst next; lia).
    assert (Hsl : slice (pre' ++ build_buffer (length pre') recs) (length pre) next
                  = ptr24 next ++ h ++ encode_strokes ss).
    { subst pre'. rewrite <- app_assoc.
      pose proof (slice_mid pre (ptr24 next ++ h ++ encode_strokes ss)
                    (build_buffer (length (pre ++ ptr24 next ++ h ++ encode_strokes ss)) recs))
        as E.
      replace (length pre + length (ptr24 next ++ h ++ encode_strokes ss))%nat with next in E
        by (rewrite !length_app, length_ptr24; subst next; lia).
      exact E. }
    rewrite Hsl, PegasusNote_init_record by exact Hr. cbn [mbind result_bind].
    assert (Hrp : read_pointer (pre' ++ build_buffer (length pre') recs) next = Ok p')
      by (rewrite <- Hpre', read_pointer_app; exact Hp').
    rewrite Hrp. cbn [mbind result_bind].
    rewrite Hpre' in Hrun |- *. rewrite Hrun. by rewrite <- app_assoc.
Qed.

End BuildProofs.

(** A record payload that is not a whole number of 4-byte groups raises
    [struct.error]; a whole number of groups always decodes. *)
Lemma stroke_loop_mod4 rest : forall strokes cur,
  (Nat.modulo (length rest) 4 = 0%nat -> exists r, stroke_loop rest strokes cur = Ok r) /\
  (Nat.modulo (length rest) 4 <> 0%nat -> stroke_loop rest strokes cur = Raise StructError).
Proof.
  induction rest as [rest IH] using (induction_ltof1 _ (@length byte)).
  unfold ltof in IH. intros strokes cur.
  destruct rest as [|b0 [|b1 [|b2 [|b3 rest']]]];
    [split; [eauto|simpl; congruence]
    |split; [simpl; congruence|reflexivity]..|].
  replace (length (b0 :: b1 :: b2 :: b3 :: rest')) with (length rest' + 1 * 4)%nat
    by (simpl; lia).
  rewrite Nat.Div0.mod_add. simpl.
  destruct (decide _); apply IH; simpl; lia.
Qed.


(** [decode_header] on a record shorter than 14 bytes whose flags byte has
    bit 4 set: one of the reads [data[4]] .. [data[13]] is past the end. *)
Lemma decode_header_short data f :
  (length data < 14)%nat -> data !! 3%nat = Some f -> Z.testbit (byte_val f) 4 = true ->
  decode_header data = Raise IndexError.
Proof.
  intros Hl H3 Hb.
  assert (H13 : data !! 13%nat = None) by (apply lookup_ge_None_2; lia).
  destruct (flag_set_testbit f) as (_ & _ & _ & E4 & _).
  unfold decode_header, index. rewrite H3. cbn [mbind result_bind].
  unfold py_assert. rewrite E4, Hb. cbn [mbind result_bind].
  rewrite H13.
  repeat match goal with
         | |- context [data !! ?i] => destruct (data !! i); cbn [mbind result_bind]
         end; reflexivity.
Qed.

(** Decoding a note stream laid out record by record (each pointer the
    offset of the next record, a zero pointer at the end) gives one note
    per record, in order: its strokes, the digest of its payload and the
    note id byte of its header. *)
Theorem load_pegasus_notes_build (md5 : list byte -> Z) recs :
  Forall wf_record recs -> Z.of_nat (length (build_buffer 0 recs)) < 2 ^ 24 ->
  load_pegasus_notes md5 (build_buffer 0 recs) = Ok (map (built_note md5) recs).
Proof.
  intros Hwf Hlen. unfold load_pegasus_notes, load_pegasus_notes_fuel.
  pose proof (length_build_buffer 0 recs) as Hl.
  destruct (load_loop_build md5 recs [] [] (S (length (build_buffer 0 recs))) Hwf
              ltac:(lia) Hlen) as (p & Hp & Hrun).
  simpl in Hp, Hrun. rewrite Hp. exact Hrun.
Qed.

Lemma load_pegasus_notes_build_witness :
  load_pegasus_notes (fun l => Z.of_nat (length l))
    (build_buffer 0
       [([x9c; x03; x05; x01; x02; x03; x04; x01; x00; x00; x00],
         [[(x01, x00, x02, x00); (x03, x00, x04, x00)]; [(x05, x00, xff, xff)]]);
        ([x90; x04; x05; x01; x02; x03; x04; x01; x00; x00; x00], [])])
  = Ok (map (built_note (fun l => Z.of_nat (length l)))
          [([x9c; x03; x05; x01; x02; x03; x04; x01; x00; x00; x00],
            [[(x01, x00, x02, x00); (x03, x00, x04, x00)]; [(x05, x00, xff, xff)]]);
           ([x90; x04; x05; x01; x02; x03; x04; x01; x00; x00; x00], [])]).
Proof.
  apply (load_pegasus_notes_build (fun l => Z.of_nat (length l))
           [([x9c; x03; x05; x01; x02; x03; x04; x01; x00; x00; x00],
             [[(x01, x00, x02, x00); (x03, x00, x04, x00)]; [(x05, x00, xff, xff)]]);
            ([x90; x04; x05; x01; x02; x03; x04; x01; x00; x00; x00], [])]);
    [|vm_compute; reflexivity].
  constructor; [|constructor; [|constructor]];
    (split; [reflexivity|split; [eexists; split; reflexivity|]]);
    simpl; repeat constructor; discriminate.
Defined.

(** What [PegasusNote(data)] does with a record: fewer than 4 bytes raise
    [IndexError]; a flags byte without bit 4 raises [AssertionError]; with
    bit 4 set, a record shorter than the 14-byte header raises [IndexError],
    a payload that is not a whole number of 4-byte groups raises
    [struct.error], and any other record decodes. *)
Theorem PegasusNote_init_outcomes (md5 : list byte -> Z) data :
  ((length data < 4)%nat -> PegasusNote_init md5 data = Raise IndexError) /\
  (forall f, data !! 3%nat = Some f ->
     (Z.testbit (byte_val f) 4 = false -> PegasusNote_init md5 data = Raise AssertionError) /\
     (Z.testbit (byte_val f) 4 = true -> (length data < 14)%nat ->
        PegasusNote_init md5 data = Raise IndexError) /\
     (Z.testbit (byte_val f) 4 = true -> (14 <= length data)%nat ->
        Nat.modulo (length data - 14) 4 <> 0%nat ->
        PegasusNote_init md5 data = Raise StructError) /\
     (Z.testbit (byte_val f) 4 = true -> (14 <= length data)%nat ->
        Nat.modulo (length data - 14) 4 = 0%nat ->
        exists n, PegasusNote_init md5 data = Ok n)).
Proof.
  split.
  { intros Hl. unfold PegasusNote_init, decode_header, index.
    rewrite (lookup_ge_None_2 data 3) by lia. reflexivity. }
  intros f H3. split; [|split; [|split]].
  - intros Hb. destruct (flag_set_testbit f) as (_ & _ & _ & E4 & _).
    unfold PegasusNote_init, decode_header, index. rewrite H3. cbn [mbind result_bind].
    unfold py_assert. rewrite E4, Hb. reflexivity.
  - intros Hb Hl. unfold PegasusNote_init. rewrite (decode_header_short data f) by assumption.
    reflexivity.
  - intros Hb Hl Hm.
    destruct (proj2 (decode_header_spec data f H3 Hl) Hb) as (h & Hh & _).
    unfold PegasusNote_init. rewrite Hh. cbn [mbind result_bind].
    rewrite (proj2 (stroke_loop_mod4 (drop 14 data) [] [])) by (rewrite length_drop; exact Hm).
    reflexivity.
  - intros Hb Hl Hm.
    destruct (proj2 (decode_header_spec data f H3 Hl) Hb) as (h & Hh & _).
    destruct (proj1 (stroke_loop_mod4 (drop 14 data) [] [])) as [r Hr];
      [rewrite length_drop; exact Hm|].
    unfold PegasusNote_init. rewrite Hh. cbn [mbind result_bind]. rewrite Hr.
    by eexists.
Qed.

Lemma PegasusNote_init_outcomes_witness :
  PegasusNote_init (fun _ => 0) [x16; x00; x00] = Raise IndexError /\
  PegasusNote_init (fun _ => 0)
    [x16; x00; x00; x8c; x03; x05; x01; x02; x03; x04; x01; x00; x00; x00]
  = Raise AssertionError /\
  PegasusNote_init (fun _ => 0) [x16; x00; x00; x9c; x03; x05; x01; x02; x03]
  = Raise IndexError /\
  PegasusNote_init (fun _ => 0)
    [x16; x00; x00; x9c; x03; x05; x01; x02; x03; x04; x01; x00; x00; x00; x01; x02]
  = Raise StructError /\
  exists n, PegasusNote_init (fun _ => 0)
    [x16; x00; x00; x9c; x03; x05; x01; x02; x03; x04; x01; x00; x00; x00;
     x01; x00; x02; x00] = Ok n.
Proof.
  split; [apply (proj1 (PegasusNote_init_outcomes (fun _ => 0) [x16; x00; x00])); simpl; lia|].
  split; [apply (proj1 (proj2 (PegasusNote_init_outcomes (fun _ => 0)
            [x16; x00; x00; x8c; x03; x05; x01; x02; x03; x04; x01; x00; x00; x00]) x8c
            eq_refl)); reflexivity|].
  split; [apply (proj1 (proj2 (proj2 (PegasusNote_init_outcomes (fun _ => 0)
            [x16; x00; x00; x9c; x03; x05; x01; x02; x03]) x9c eq_refl)));
          [reflexivity|simpl; lia]|].
  split; [apply (proj1 (proj2 (proj2 (proj2 (PegasusNote_init_outcomes (fun _ => 0)
            [x16; x00; x00; x9c; x03; x05; x01; x02; x03; x04; x01; x00; x00; x00; x01; x02])
            x9c eq_refl))));
          [reflexivity|simpl; lia|simpl; discriminate]|].
  apply (proj2 (proj2 (proj2 (proj2 (PegasusNote_init_outcomes (fun _ => 0)
            [x16; x00; x00; x9c; x03; x05; x01; x02; x03; x04; x01; x00; x00; x00;
             x01; x00; x02; x00]) x9c eq_refl))));
    [reflexivity|simpl; lia|reflexivity].
Defined.



(** A buffer shorter than 3 bytes raises [IndexError] (no first pointer to
    read); a buffer whose first pointer is zero holds no notes, whatever
    follows. *)
Theorem load_pegasus_notes_short_or_empty (md5 : list byte -> Z) data rest :
  ((length data < 3)%nat -> load_pegasus_notes md5 data = Raise IndexError) /\
  load_pegasus_notes md5 ([x00; x00; x00] ++ rest) = Ok [].
Proof.
  split; [|reflexivity].
  intros Hl. destruct data as [|b0 [|b1 [|b2 data]]]; [reflexivity..|simpl in Hl; lia].
Qed.

Lemma load_pegasus_notes_short_or_empty_witness :
  load_pegasus_notes (fun _ => 0) [x01; x00] = Raise IndexError /\
  load_pegasus_notes (fun _ => 0) ([x00; x00; x00] ++ [x05; x06]) = Ok [].
Proof.
  destruct (load_pegasus_notes_short_or_empty (fun _ => 0) [x01; x00] [x05; x06]) as [H1 H2].
  split; [apply H1; simpl; lia|exact H2].
Defined.

(** * Text, the device object and the script *)
Lemma str_split_nosep c s : c ∉ s -> str_split c s = [s].
Proof.
  induction s as [|x s IH]; simpl; intros H; [done|].
  apply not_elem_of_cons in H as [H1 H2].
  rewrite decide_False by done. rewrite IH by done. done.
Qed.

Lemma str_split_app c a b : c ∉ a -> str_split c (a ++ c :: b) = a :: str_split c b.
Proof.
  induction a as [|x a IH]; simpl; intros H.
  - rewrite decide_True by done. done.
  - apply not_elem_of_cons in H as [H1 H2].
    rewrite decide_False by done. rewrite IH by done. done.
Qed.

Lemma strftime_plain dir s : "%"%char ∉ s -> strftime dir s = s.
Proof.
  induction s as [|x s IH]; simpl; intros H; [done|].
  apply not_elem_of_cons in H as [H1 H2].
  rewrite decide_False by done. rewrite IH by done. done.
Qed.

Lemma strftime_pct dir d s : strftime dir ("%"%char :: d :: s) = dir d ++ strftime dir s.
Proof. reflexivity. Qed.

Lemma strftime_cons dir c s : c <> "%"%char -> strftime dir (c :: s) = c :: strftime dir s.
Proof. intros H. simpl. rewrite decide_False by done. done. Qed.

Lemma to_digits_spec b fuel : 2 <= b -> forall n acc, 0 <= n -> n < b ^ Z.of_nat fuel ->
  exists L, to_digits fuel b n acc = L ++ acc /\ Forall (fun d => 0 <= d < b) L /\
            fold_left (fun v d => v * b + d) L 0 = n /\ (fuel <> 0%nat -> L <> []).
Proof.
  intros Hb. induction fuel as [|fuel IH]; intros n acc Hn Hlt.
  - simpl in Hlt. exists []. simpl. split; [done|]. split; [constructor|]. split; [lia|done].
  - simpl. destruct (Z.ltb_spec n b).
    + exists [n]. simpl. split; [done|]. split; [constructor; [lia|constructor]|].
      split; [lia|done].
    + rewrite Nat2Z.inj_succ, Z.pow_succ_r in Hlt by lia.
      destruct (IH (n / b) (n mod b :: acc)) as (L & E & HF & Hv & _).
      { apply Z.div_pos; lia. }
      { apply Z.div_lt_upper_bound; lia. }
      exists (L ++ [n mod b]). rewrite E, <- app_assoc. simpl.
      repeat split.
      * apply Forall_app; split; [done|]. constructor; [|constructor].
        apply Z.mod_pos_bound; lia.
      * rewrite fold_left_app, Hv. simpl. rewrite (Z.div_mod n b) at 3 by lia. lia.
      * intros _ Hc. destruct L; discriminate.
Qed.

Lemma digits_spec b n : 2 <= b -> 0 <= n ->
  Forall (fun d => 0 <= d < b) (digits b n) /\
  fold_left (fun v d => v * b + d) (digits b n) 0 = n /\ digits b n <> [].
Proof.
  intros Hb Hn. unfold digits.
  destruct (to_digits_spec b (S (Z.to_nat (Z.log2 n))) Hb n [] Hn) as (L & E & HF & Hv & Hne).
  - rewrite Nat2Z.inj_succ, Z2Nat.id by apply Z.log2_nonneg.
    destruct (Z.eq_dec n 0) as [->|Hn0].
    + simpl. lia.
    + destruct (Z.log2_spec n) as [_ H2]; [lia|].
      eapply Z.lt_le_trans; [exact H2|].
      apply Z.pow_le_mono_l. split; [lia|done].
  - rewrite E, app_nil_r. repeat split; [done|done|]. apply Hne; done.
Qed.



Lemma Z_range16 (P : Z -> Prop) :
  Forall P [0; 1; 2; 3; 4; 5; 6; 7; 8; 9; 10; 11; 12; 13; 14; 15] ->
  forall d, 0 <= d < 16 -> P d.
Proof.
  intros HF d Hd. rewrite Forall_forall in HF. apply HF.
  apply list_elem_of_In. simpl. lia.
Qed.

Lemma digit_char_hex u d : 0 <= d < 16 ->
  hex_value (digit_char u d) = Some d /\ is_space (digit_char u d) = false /\
  digit_char u d ∉ lit "-+.%/xX".
Proof.
  revert d. apply Z_range16.
  destruct u; repeat first [apply List.Forall_nil | apply List.Forall_cons];
    (split; [reflexivity|split; [reflexivity|]]);
    apply (bool_decide_unpack _); vm_compute; reflexivity.
Qed.

Ltac decide_in := apply (bool_decide_unpack _); vm_compute; reflexivity.

Lemma digit_char_neq u d c : 0 <= d < 16 -> c ∈ lit "-+.%/xX" -> digit_char u d <> c.
Proof. intros Hd Hc E. destruct (digit_char_hex u d Hd) as (_ & _ & H). rewrite E in H. done. Qed.

Lemma fold_hex_map u L acc : Forall (fun d => 0 <= d < 16) L ->
  fold_left hex_step (map (digit_char u) L) acc = fold_left (fun v d => v * 16 + d) L acc.
Proof.
  revert acc. induction L as [|d L IH]; intros acc HF; [done|].
  apply Forall_cons in HF as [Hd HF]. simpl. rewrite IH by done.
  unfold hex_step. destruct (digit_char_hex u d Hd) as (-> & _). done.
Qed.

Lemma format_int_chars w b u z : 2 <= b <= 16 -> 0 <= z ->
  format_int w b u z <> [] /\ Forall (digit_of u) (format_int w b u z).
Proof.
  intros Hb Hz. unfold format_int.
  destruct (Z.ltb_spec z 0); [lia|]. rewrite Z.abs_eq by lia.
  destruct (digits_spec b z ltac:(lia) ltac:(lia)) as (HF & _ & Hne).
  simpl. split.
  - intros E. apply app_eq_nil in E as [_ E]. destruct (digits b z); [done|discriminate].
  - apply Forall_app. split.
    + apply Forall_replicate. exists 0. split; [lia|reflexivity].
    + apply Forall_map. eapply Forall_impl; [exact HF|]. intros d Hd; simpl in Hd. exists d. split; [lia|done].
Qed.

Lemma format_int_value w u z : 0 <= z ->
  fold_left hex_step (format_int w 16 u z) 0 = z.
Proof.
  intros Hz. unfold format_int.
  destruct (Z.ltb_spec z 0); [lia|]. rewrite Z.abs_eq by lia.
  destruct (digits_spec 16 z ltac:(lia) ltac:(lia)) as (HF & Hv & _).
  simpl. rewrite fold_left_app.
  assert (forall k, fold_left hex_step (replicate k "0"%char) 0 = 0) as ->.
  { induction k; simpl; [done|]. exact IHk. }
  rewrite fold_hex_map by done. done.
Qed.

Lemma scan_hex_digits u cs acc : Forall (digit_of u) cs ->
  scan_hex cs acc = (fold_left hex_step cs acc, []).
Proof.
  revert acc. induction cs as [|c cs IH]; intros acc HF; [done|].
  apply Forall_cons in HF as [(d & Hd & ->) HF].
  simpl. destruct (digit_char_hex u d Hd) as (-> & _). rewrite IH by done.
  unfold hex_step. rewrite (proj1 (digit_char_hex u d Hd)). done.
Qed.

Lemma int_base16_digits u cs : cs <> [] -> Forall (digit_of u) cs ->
  int_base16 cs = Ok (fold_left hex_step cs 0).
Proof.
  intros Hne HF. destruct cs as [|c0 cs]; [done|].
  pose proof HF as HF0. apply Forall_cons in HF0 as [(d0 & Hd0 & E0) HF'].
  destruct (digit_char_hex u d0 Hd0) as (Hh0 & Hs0 & _).
  unfold int_base16. simpl lstrip. rewrite <- E0 in Hs0. rewrite Hs0.
  rewrite decide_False by (rewrite E0; apply digit_char_neq; [done|decide_in]).
  rewrite decide_False by (rewrite E0; apply digit_char_neq; [done|decide_in]).
  rewrite <- E0 in Hh0.
  destruct cs as [|c1 r].
  - cbn -[scan_hex hex_value]. rewrite Hh0.
    rewrite (scan_hex_digits u [c0] 0) by done. done.
  - apply Forall_cons in HF' as [(d1 & Hd1 & E1) _].
    rewrite (bool_decide_eq_false_2 (c1 = "x"%char)) by (rewrite E1; apply digit_char_neq; [done|decide_in]).
    rewrite (bool_decide_eq_false_2 (c1 = "X"%char)) by (rewrite E1; apply digit_char_neq; [done|decide_in]).
    rewrite andb_false_r. cbn -[scan_hex hex_value]. rewrite Hh0.
    rewrite (scan_hex_digits u (c0 :: c1 :: r) 0) by done. done.
Qed.



Lemma int_base16_format w u z : 0 <= z -> int_base16 (format_int w 16 u z) = Ok z.
Proof.
  intros Hz. destruct (format_int_chars w 16 u z ltac:(lia) Hz) as [Hne HF].
  rewrite (int_base16_digits u) by done. rewrite format_int_value by done. done.
Qed.

Lemma not_in_digits u c s : Forall (digit_of u) s -> c ∈ lit "-+.%/xX" -> c ∉ s.
Proof.
  intros HF Hc Hin. rewrite Forall_forall in HF. destruct (HF c Hin) as (d & Hd & E).
  exact (digit_char_neq u d c Hd Hc (eq_sym E)).
Qed.

Lemma not_in_decimal c s : Forall is_decimal s -> ~ is_decimal c -> c ∉ s.
Proof. intros HF Hc Hin. rewrite Forall_forall in HF. exact (Hc (HF c Hin)). Qed.

Lemma path_join_prefix a b : exists pre, path_join a b = pre ++ b /\
  forall c, c ∈ pre -> c ∈ a \/ c = "/"%char.
Proof.
  unfold path_join. case_bool_decide.
  - exists []. split; [done|]. intros c Hc. apply elem_of_nil in Hc. done.
  - destruct (bool_decide (a = []) || bool_decide (["/"%char] `suffix_of` a)).
    + exists a. split; [done|]. intros c Hc. by left.
    + exists (a ++ ["/"%char]). split; [by rewrite <- app_assoc|].
      intros c Hc. apply elem_of_app in Hc as [Hc|Hc]; [by left|].
      apply list_elem_of_singleton in Hc. by right.
Qed.

Lemma bin_file_name_eq dir z : 0 <= z ->
  bin_file_name dir z =
    (dir "Y"%char ++ dir "m"%char ++ dir "d"%char ++ dir "H"%char ++ dir "M"%char ++ dir "S"%char)
    ++ "-"%char :: format_int 12 16 true z ++ "."%char :: lit "bin".
Proof.
  intros Hz. destruct (format_int_chars 12 16 true z ltac:(lia) Hz) as [_ HF].
  unfold bin_file_name. cbn [lit list_ascii_of_string app].
  rewrite !strftime_pct, strftime_cons by done.
  rewrite strftime_plain.
  - rewrite <- !app_assoc. done.
  - intros Hin. apply elem_of_app in Hin as [Hin|Hin].
    + revert Hin. apply (not_in_digits true); [done|decide_in].
    + revert Hin. decide_in.
Qed.

(** Dump files round trip: [PegasusFile] reads the device id back from the
    name under which the script saves a download
    ([<output>/%Y%m%d%H%M%S-{:012X}.bin]), provided the output directory
    has no dash and the date fields expand to digits; the contents are kept
    as read. *)
Theorem PegasusFile_dump_round_trip dir output device_id contents :
  date_digits dir -> "-"%char ∉ output -> 0 <= device_id ->
  PegasusFile_init (path_join output (bin_file_name dir device_id)) contents
  = Ok {| pf_data := contents; pf_device_id := device_id |}.
Proof.
  intros Hdir Hout Hz.
  destruct (format_int_chars 12 16 true device_id ltac:(lia) Hz) as [_ HF].
  destruct (path_join_prefix output (bin_file_name dir device_id)) as (pre & Ep & Hpre).
  rewrite Ep, bin_file_name_eq by done. rewrite app_assoc.
  unfold PegasusFile_init.
  rewrite str_split_app.
  2: { intros Hin. apply elem_of_app in Hin as [Hin|Hin].
       - destruct (Hpre _ Hin) as [H|H]; [done|discriminate].
       - assert (Hdec : forall d, d ∈ lit "YmdHMS" -> "-"%char ∉ dir d).
         { intros d Hd. apply not_in_decimal; [by apply Hdir|]. unfold is_decimal. intros Hc. vm_compute in Hc. lia. }
         repeat (apply elem_of_app in Hin as [Hin|Hin]; [revert Hin; apply Hdec; decide_in|]).
         revert Hin; apply Hdec; decide_in. }
  rewrite str_split_nosep.
  2: { intros Hin. apply elem_of_app in Hin as [Hin|Hin].
       - revert Hin. apply (not_in_digits true); [done|decide_in].
       - revert Hin. decide_in. }
  cbn [list_index lookup list_lookup mbind result_bind].
  rewrite str_split_app by (apply (not_in_digits true); [done|decide_in]).
  cbn [list_index lookup list_lookup mbind result_bind].
  rewrite int_base16_format by done. done.
Qed.



Lemma PegasusNote_init_fields md5 data n :
  PegasusNote_init md5 data = Ok n ->
  0 <= _note_id n <= 255 /\ _hash n = md5 (drop 14 data).
Proof.
  intros H. apply PegasusNote_init_Ok in H as (h & s & Hh & _ & ->). simpl.
  split; [|done].
  pose proof (decode_header_Ok_len _ _ Hh) as Hl.
  destruct (lookup_lt_is_Some_2 data 4) as [b Hb]; [lia|].
  rewrite (decode_header_note_id data h b Hh Hb). apply byte_val_range.
Qed.

Lemma load_pegasus_notes_fields md5 data notes :
  load_pegasus_notes md5 data = Ok notes ->
  Forall (fun n => 0 <= _note_id n <= 255 /\ exists bs, _hash n = md5 bs) notes.
Proof.
  unfold load_pegasus_notes, load_pegasus_notes_fuel. intros H.
  apply bind_eq_Ok in H as [p [_ H]].
  assert (Hgen : forall fuel offset pointer acc r,
            Forall (fun n => 0 <= _note_id n <= 255 /\ exists bs, _hash n = md5 bs) acc ->
            load_loop md5 fuel data offset pointer acc = Ok r ->
            Forall (fun n => 0 <= _note_id n <= 255 /\ exists bs, _hash n = md5 bs) r).
  { induction fuel as [|fuel IH]; intros offset pointer acc r Hacc E; [discriminate|].
    simpl in E. destruct (decide _).
    { injection E as <-. done. }
    apply bind_eq_Ok in E as [nt [Hnt E]].
    apply bind_eq_Ok in E as [p' [_ E]].
    eapply IH; [|exact E].
    apply Forall_app; split; [done|]. apply Forall_singleton.
    apply PegasusNote_init_fields in Hnt as [Hid Hh]. split; [done|]. eauto. }
  eapply Hgen; [constructor|exact H].
Qed.

Lemma svg_file_name_eq dir n : date_digits dir -> 0 <= _note_id n -> 0 <= _hash n ->
  svg_file_name dir n =
    (dir "Y"%char ++ dir "m"%char ++ dir "d"%char ++ "-"%char :: format_int 2 10 false (_note_id n)
     ++ "-"%char :: hexdigest (_hash n)) ++ "."%char :: lit "svg".
Proof.
  intros Hdir Hid Hh. unfold hexdigest.
  destruct (format_int_chars 2 10 false (_note_id n) ltac:(lia) Hid) as [_ HF1].
  destruct (format_int_chars 32 16 false (_hash n) ltac:(lia) Hh) as [_ HF2].
  unfold svg_file_name. cbn [lit list_ascii_of_string app].
  rewrite !strftime_pct, strftime_cons by done.
  rewrite strftime_plain.
  - repeat (rewrite <- app_assoc || rewrite <- app_comm_cons). done.
  - intros Hin. apply elem_of_app in Hin as [Hin|Hin].
    + revert Hin. apply (not_in_digits false); [done|decide_in].
    + apply elem_of_cons in Hin as [Hin|Hin]; [discriminate|].
      apply elem_of_app in Hin as [Hin|Hin].
      * revert Hin. apply (not_in_digits false); [done|decide_in].
      * revert Hin. decide_in.
Qed.

Lemma date_not_in dir c : date_digits dir -> ~ is_decimal c ->
  c ∉ dir "Y"%char ++ dir "m"%char ++ dir "d"%char.
Proof.
  intros Hdir Hc. apply not_in_decimal; [|done].
  apply Forall_app; split; [apply Hdir; decide_in|].
  apply Forall_app; split; apply Hdir; decide_in.
Qed.

Lemma existing_hashes_svg dir n rest : date_digits dir -> 0 <= _note_id n -> 0 <= _hash n ->
  existing_hashes (svg_file_name dir n :: rest) =
  (hs ← existing_hashes rest; Ok (hexdigest (_hash n) :: hs)).
Proof.
  intros Hdir Hid Hh. unfold hexdigest.
  destruct (format_int_chars 2 10 false (_note_id n) ltac:(lia) Hid) as [_ HF1].
  destruct (format_int_chars 32 16 false (_hash n) ltac:(lia) Hh) as [_ HF2].
  assert (Hdash : ~ is_decimal "-"%char) by (unfold is_decimal; intros Hc; vm_compute in Hc; lia).
  assert (Hdot : ~ is_decimal "."%char) by (unfold is_decimal; intros Hc; vm_compute in Hc; lia).
  cbn [existing_hashes]. rewrite svg_file_name_eq by done.
  unfold str_endswith. rewrite bool_decide_eq_true_2 by (eexists; reflexivity).
  rewrite str_split_app.
  2: { rewrite !app_assoc. intros Hin. apply elem_of_app in Hin as [Hin|Hin].
       - revert Hin. rewrite <- !app_assoc. by apply date_not_in.
       - apply elem_of_cons in Hin as [Hin|Hin]; [discriminate|].
         apply elem_of_app in Hin as [Hin|Hin].
         + revert Hin. apply (not_in_digits false); [done|decide_in].
         + apply elem_of_cons in Hin as [Hin|Hin]; [discriminate|].
           revert Hin. apply (not_in_digits false); [done|decide_in]. }
  cbn [list_index lookup list_lookup mbind result_bind].
  rewrite !app_assoc, str_split_app.
  2: { rewrite <- !app_assoc. by apply date_not_in. }
  rewrite str_split_app by (apply (not_in_digits false); [done|decide_in]).
  rewrite str_split_nosep by (apply (not_in_digits false); [done|decide_in]).
  reflexivity.
Qed.



Lemma existing_hashes_app l1 l2 :
  existing_hashes (l1 ++ l2) =
  (h1 ← existing_hashes l1; h2 ← existing_hashes l2; Ok (h1 ++ h2)).
Proof.
  induction l1 as [|x l1 IH]; simpl.
  - destruct (existing_hashes l2); done.
  - destruct (str_endswith _ _); [|exact IH].
    destruct (list_index (str_split _ x) 0) as [stem| |]; simpl; [|done|done].
    destruct (list_index (str_split _ stem) 2) as [h| |]; simpl; [|done|done].
    rewrite IH. destruct (existing_hashes l1) as [h1| |]; simpl; [|done|done].
    destruct (existing_hashes l2); done.
Qed.

Lemma export_notes_written clock k ex notes :
  map snd (export_notes clock k ex notes) =
  filter (fun n => hexdigest (_hash n) ∉ ex) notes.
Proof.
  revert k. induction notes as [|n notes IH]; intros k; [done|].
  simpl. rewrite filter_cons. case_bool_decide; case_decide; try done; simpl; by rewrite IH.
Qed.

Lemma export_notes_names clock k ex notes :
  (forall k, date_digits (clock k)) ->
  Forall (fun n => 0 <= _note_id n /\ 0 <= _hash n) notes ->
  existing_hashes (map fst (export_notes clock k ex notes)) =
  Ok (map (fun nn => hexdigest (_hash nn.2)) (export_notes clock k ex notes)).
Proof.
  intros Hclock. revert k. induction notes as [|n notes IH]; intros k HF; [done|].
  apply Forall_cons in HF as [[Hid Hh] HF].
  cbn [export_notes]. case_bool_decide; [by apply IH|].
  cbn [map fst snd]. rewrite existing_hashes_svg by done. rewrite IH by done. done.
Qed.

Lemma export_notes_nil clock k ex notes :
  Forall (fun n => hexdigest (_hash n) ∈ ex) notes -> export_notes clock k ex notes = [].
Proof.
  revert k. induction notes as [|n notes IH]; intros k HF; [done|].
  apply Forall_cons in HF as [Hn HF]. simpl. rewrite bool_decide_eq_true_2 by done.
  by apply IH.
Qed.

(** Exporting is idempotent: when the output directory lists the SVG
    files a run wrote (besides what it listed before), a second run over
    the same download writes no file, whatever its clock, provided the
    digest is non-negative and the first run's date fields are digits. *)
Theorem main_export_rerun md5 clock clock' output listing data existing notes :
  (forall bs, 0 <= md5 bs) -> (forall k, date_digits (clock k)) ->
  existing_hashes listing = Ok existing -> load_pegasus_notes md5 data = Ok notes ->
  main_export md5 clock' output (listing ++ map fst (export_notes clock 0 existing notes)) data
  = Ok [].
Proof.
  intros Hmd5 Hclock Hex Hload.
  pose proof (load_pegasus_notes_fields md5 data notes Hload) as HF.
  assert (HF' : Forall (fun n => 0 <= _note_id n /\ 0 <= _hash n) notes).
  { eapply Forall_impl; [exact HF|]. intros n [Hid [bs ->]]. split; [lia|apply Hmd5]. }
  unfold main_export. rewrite existing_hashes_app, Hex. simpl.
  rewrite export_notes_names by done. simpl. rewrite Hload. simpl.
  rewrite export_notes_nil; [done|].
  apply Forall_forall. intros n Hn. apply elem_of_app.
  destruct (decide (hexdigest (_hash n) ∈ existing)) as [Hin|Hnin]; [by left|right].
  assert (Hw : n ∈ map snd (export_notes clock 0 existing notes)).
  { rewrite export_notes_written. by apply list_elem_of_filter. }
  apply list_elem_of_In, in_map_iff in Hw as [[nm n'] [Hn' Hw]]. simpl in Hn'. subst n'.
  apply list_elem_of_In, in_map_iff. exists (nm, n). done.
Qed.

Lemma length_str_split c s : length (str_split c s) = S (length (filter (fun x => x = c) s)).
Proof.
  induction s as [|x s IH]; [done|]. simpl. rewrite filter_cons.
  case_decide; simpl; [by rewrite IH|].
  destruct (str_split c s) eqn:E; simpl in *; lia.
Qed.

(** A file in the output directory that ends in [.svg] but has fewer than
    two dashes before its first dot (such as [notes.svg]) makes the script
    raise [IndexError] before it decodes or writes anything. *)
Theorem main_export_foreign_svg md5 clock output pre x rest data hs stem ext :
  existing_hashes pre = Ok hs ->
  x = stem ++ "."%char :: ext -> "."%char ∉ stem -> str_endswith x (lit ".svg") = true ->
  (length (filter (fun c => c = "-"%char) stem) < 2)%nat ->
  main_export md5 clock output (pre ++ x :: rest) data = Raise IndexError.
Proof.
  intros Hpre Hx Hdot Hsvg Hdash.
  unfold main_export. rewrite existing_hashes_app, Hpre, bind_Ok.
  cbn [existing_hashes]. rewrite Hsvg. subst x. rewrite str_split_app by done.
  change (list_index (stem :: str_split "."%char ext) 0) with (Ok stem : result pystr).
  rewrite bind_Ok.
  unfold list_index. rewrite lookup_ge_None_2; [done|].
  rewrite length_str_split. lia.
Qed.

(** [PegasusFile(f)] raises [IndexError] on a path without a dash, such as
    the default device path [/dev/irisnotes] when it is a regular file. *)
Theorem PegasusFile_init_no_dash f contents :
  "-"%char ∉ f -> PegasusFile_init f contents = Raise IndexError.
Proof. intros H. unfold PegasusFile_init. rewrite str_split_nosep by done. done. Qed.



Lemma device_id_loop_spec m n : forall k acc, (k + 2 + n <= length m)%nat ->
  device_id_loop (Some m) (seq k n) acc = Ok (be_bytes acc (take n (drop (k + 2) m))).
Proof.
  induction n as [|n IH]; intros k acc Hk; [done|].
  destruct (lookup_lt_is_Some_2 m (k + 2)) as [b Hb]; [lia|].
  cbn [seq device_id_loop reply_index]. unfold index. rewrite Hb, bind_Ok.
  rewrite (drop_S _ b) by done. rewrite IH by lia.
  rewrite Z.shiftl_mul_pow2 by lia. replace (S k + 2)%nat with (S (k + 2)) by lia.
  done.
Qed.

Lemma be_bytes_range l : forall acc a, 0 <= acc < 256 ^ Z.of_nat a ->
  0 <= be_bytes acc l < 256 ^ Z.of_nat (a + length l).
Proof.
  induction l as [|b l IH]; intros acc a Hacc.
  - simpl. rewrite Nat.add_0_r. done.
  - cbn [be_bytes fold_left length]. replace (a + S (length l))%nat with (S a + length l)%nat by lia.
    apply IH. pose proof (byte_val_range b).
    rewrite Nat2Z.inj_succ, Z.pow_succ_r by lia. nia.
Qed.

(** [notes_count] sends the command frame for [0x80 0xc0] and reads one
    reply: a silent device gives [TypeError]; otherwise bytes 0-1 must be
    [0x81 0xc0] ([AssertionError] if not) and the count is the
    little-endian u16 at bytes 2-3. *)
Theorem notes_count_reply_layout w tr trs r :
  dev_read_result default_timeout tr = Ok r ->
  notes_count {| dev_written := w; dev_traces := tr :: trs |} =
  match r with
  | None => Raise TypeError
  | Some m =>
      if (byte_val (nth 0 m x00) =? 0x81) && (byte_val (nth 1 m x00) =? 0xc0)
      then Ok (byte_val (nth 2 m x00) + 256 * byte_val (nth 3 m x00),
               {| dev_written := w ++ [[x02; x02; x80; xc0; x00; x00; x00; x00]];
                  dev_traces := trs |})
      else Raise AssertionError
  end.
Proof.
  intros H.
  unfold notes_count, _dev_write_command, _dev_read.
  cbv [mbind dev_bind mret dev_ret lift result_bind result_ret dev_traces dev_written].
  cbn [length Byte.of_nat].
  rewrite H. destruct r as [m|]; [|reflexivity].
  pose proof (dev_read_result_len _ _ _ H) as Hm.
  destruct m as [|b0 [|b1 [|b2 [|b3 m']]]]; try (simpl in Hm; lia).
  cbn. destruct (byte_val b0 =? 129); [|reflexivity].
  destruct (byte_val b1 =? 192); [|reflexivity].
  cbn. rewrite Z.shiftl_mul_pow2 by lia. replace (byte_val b3 * 2 ^ 8) with (256 * byte_val b3) by lia. reflexivity.
Qed.

Lemma get_device_id_reply w tr trs r :
  dev_read_result default_timeout tr = Ok r ->
  _get_device_id {| dev_written := w; dev_traces := tr :: trs |} =
  match r with
  | None => Raise TypeError
  | Some m =>
      if (byte_val (nth 0 m x00) =? 0x81) && (byte_val (nth 1 m x00) =? 0xd3)
      then Ok (be_bytes 0 (slice m 2 14),
               {| dev_written := w ++ [[x02; x02; x80; xd3; x00; x00; x00; x00]];
                  dev_traces := trs |})
      else Raise AssertionError
  end.
Proof.
  intros H.
  unfold _get_device_id, _dev_write_command, _dev_read.
  cbv [mbind dev_bind mret dev_ret lift result_bind result_ret dev_traces dev_written].
  cbn [length Byte.of_nat].
  rewrite H. destruct r as [m|]; [|reflexivity].
  pose proof (dev_read_result_len _ _ _ H) as Hm.
  rewrite device_id_loop_spec by lia.
  destruct m as [|b0 [|b1 m']]; try (simpl in Hm; lia).
  unfold check_byte, reply_index, index, py_assert, slice. cbn [lookup list_lookup nth mbind result_bind].
  destruct (byte_val b0 =? 129); [|reflexivity].
  destruct (byte_val b1 =? 211); reflexivity.
Qed.

(** A device id [_get_device_id] returns is a 96-bit unsigned number. *)
Theorem get_device_id_range s id s' :
  _get_device_id s = Ok (id, s') -> 0 <= id < 2 ^ 96.
Proof.
  destruct s as [w [|tr trs]]; [discriminate|].
  destruct (dev_read_result default_timeout tr) as [r| |] eqn:E.
  2, 3: unfold _get_device_id, _dev_write_command, _dev_read;
    cbv [mbind dev_bind mret dev_ret lift result_bind result_ret dev_traces dev_written];
    cbn [length Byte.of_nat]; rewrite E; discriminate.
  rewrite (get_device_id_reply w tr trs r E).
  destruct r as [m|]; [|discriminate].
  destruct (_ && _); [|discriminate]. intros Hid. injection Hid as <- _.
  pose proof (dev_read_result_len _ _ _ E) as Hm.
  replace (2 ^ 96) with (256 ^ Z.of_nat (0 + length (slice m 2 14))).
  - apply be_bytes_range. simpl. lia.
  - unfold slice. rewrite length_take, length_drop, Hm. reflexivity.
Qed.




Ltac run_obj :=
  cbv [mbind obj_bind mret obj_ret version_property get_self put_self on_f print lift_obj
       PegasusDevice_get_version PegasusDevice_product_id PegasusDevice_version
       PegasusDevice_pad_version PegasusDevice_mode PegasusDevice_mode_str
       PegasusDevice_device_id PegasusDevice_notes_count PegasusDevice_print_info
       result_bind result_ret with_f format_012X];
  cbn [self stdout _f pd_product_id pd_version pd_pad_version pd_mode pd_device_id].

(** While [product_id] is unset, reading [product_id], [version],
    [pad_version] and [mode] in turn queries the device once: the first
    read runs [_get_version], which sets all four attributes, and the
    others are served from them. *)
Theorem version_properties_one_query p v d :
  pd_product_id (self p) = None ->
  _get_version (_f (self p)) = Ok (v, d) ->
  (pid ← PegasusDevice_product_id; ver ← PegasusDevice_version;
   pv ← PegasusDevice_pad_version; m ← PegasusDevice_mode; mret (pid, ver, pv, m)) p =
  Ok ((Some (_product_id v), Some (_version v), Some (_pad_version v), Some (_mode v)),
      {| self := {| _f := d; pd_product_id := Some (_product_id v);
                    pd_version := Some (_version v); pd_pad_version := Some (_pad_version v);
                    pd_mode := Some (_mode v); pd_device_id := pd_device_id (self p) |};
         stdout := stdout p |}).
Proof.
  intros Hp Hv. run_obj. rewrite Hp, Hv. reflexivity.
Qed.

(** [device_id] queries the device on its first read only: reading it
    twice runs [_get_device_id] once and returns the same id. *)
Theorem device_id_cached p id d :
  pd_device_id (self p) = None -> _get_device_id (_f (self p)) = Ok (id, d) ->
  (a ← PegasusDevice_device_id; b ← PegasusDevice_device_id; mret (a, b)) p =
  Ok ((Some id, Some id),
      {| self := {| _f := d; pd_product_id := pd_product_id (self p);
                    pd_version := pd_version (self p); pd_pad_version := pd_pad_version (self p);
                    pd_mode := pd_mode (self p); pd_device_id := Some id |};
         stdout := stdout p |}).
Proof.
  intros Hp Hd. run_obj. rewrite Hp, Hd. reflexivity.
Qed.

(** On a fresh device object, [print_info] prints its three lines after
    querying the version, the device id and the notes count, in that
    order; a second [print_info] queries the notes count only, the other
    values being cached. *)
Theorem print_info_twice p d v d1 id d2 n1 d3 n2 d4 :
  self p = PegasusDevice_init d ->
  _get_version d = Ok (v, d1) -> _get_device_id d1 = Ok (id, d2) ->
  notes_count d2 = Ok (n1, d3) -> notes_count d3 = Ok (n2, d4) ->
  (_ ← PegasusDevice_print_info; PegasusDevice_print_info) p =
  Ok (tt, {| self := {| _f := d4; pd_product_id := Some (_product_id v);
                        pd_version := Some (_version v); pd_pad_version := Some (_pad_version v);
                        pd_mode := Some (_mode v); pd_device_id := Some id |};
             stdout := stdout p ++ info_lines v id n1 ++ info_lines v id n2 |}).
Proof.
  intros Hp Hv Hd Hn1 Hn2. destruct p as [o out]. cbn [self] in Hp. subst o.
  unfold PegasusDevice_init. run_obj. rewrite Hv. cbn. rewrite Hd. cbn. rewrite Hn1. cbn. rewrite Hn2. cbn.
  rewrite <- !app_assoc. reflexivity.
Qed.

(** [_get_device_id] sends the command 0x80 0xd3. A device that does not
    answer gives a TypeError; a reply whose first two bytes are not
    0x81 0xd3 fails the assertion; otherwise the id is the big-endian
    number formed by reply bytes 2 to 13. *)
Theorem get_device_id_layout w tr trs r :
  dev_read_result default_timeout tr = Ok r ->
  _get_device_id {| dev_written := w; dev_traces := tr :: trs |} =
  match r with
  | None => Raise TypeError
  | Some m =>
      if (byte_val (nth 0 m x00) =? 0x81) && (byte_val (nth 1 m x00) =? 0xd3)
      then Ok (be_bytes 0 (slice m 2 14),
               {| dev_written := w ++ [[x02; x02; x80; xd3; x00; x00; x00; x00]];
                  dev_traces := trs |})
      else Raise AssertionError
  end.
Proof. apply get_device_id_reply. Qed.

(** When the listing and the download decode, the script writes exactly the
    downloaded notes whose hash no listed .svg name carries, in download
    order; two equal notes of one download are both written. *)
Theorem main_export_written_notes md5 clock output listing data existing notes :
  existing_hashes listing = Ok existing -> load_pegasus_notes md5 data = Ok notes ->
  exists written, main_export md5 clock output listing data = Ok written /\
    map snd written = filter (fun n => hexdigest (_hash n) ∉ existing) notes.
Proof.
  intros Hex Hload. unfold main_export. rewrite Hex, bind_Ok, Hload, bind_Ok.
  eexists. split; [reflexivity|].
  rewrite map_map, <- (export_notes_written clock 0). apply map_ext. done.
Qed.


(** [download_data] raises TypeError when the device does not answer the
    0xb5 request, and returns an empty buffer, after sending 0xb5 and two
    0xb6 commands, when the header announces zero packets. *)
Theorem download_data_empty_or_silent w tr trs r :
  dev_read_result default_timeout tr = Ok r ->
  (r = None ->
   download_data {| dev_written := w; dev_traces := tr :: trs |} = Raise TypeError) /\
  (forall m, r = Some m -> download_header (Some m) = Ok 0 ->
   download_data {| dev_written := w; dev_traces := tr :: trs |} =
   Ok ([], {| dev_written := w ++ [cmd_frame [xb5]; cmd_frame [xb6]; cmd_frame [xb6]];
              dev_traces := trs |})).
Proof.
  intros H. split.
  - intros ->. unfold download_data, _dev_write_command, _dev_read.
    cbv [mbind dev_bind mret dev_ret lift result_bind result_ret dev_traces dev_written].
    cbn [length Byte.of_nat]. rewrite H. reflexivity.
  - intros m -> Hh. unfold download_data, _dev_write_command, _dev_read.
    cbv [mbind dev_bind mret dev_ret lift result_bind result_ret dev_traces dev_written
         get_state].
    cbn [length Byte.of_nat]. rewrite H, Hh.
    rewrite download_loop_stop by (rewrite map_size_empty; lia).
    rewrite map_size_empty. unfold py_assert. change (Z.of_nat 0 =? 0) with true.
    change (Z.to_nat 0) with 0%nat. cbn. rewrite <- !app_assoc. reflexivity.
Qed.

(** ** Instances of the properties above *)

Lemma notes_count_reply_layout_witness :
  notes_count {| dev_written := []; dev_traces := [ok_trace sample_count_reply] |}
  = Ok (5, {| dev_written := [[x02; x02; x80; xc0; x00; x00; x00; x00]]; dev_traces := [] |}).
Proof.
  rewrite (notes_count_reply_layout [] (ok_trace sample_count_reply) [] (Some sample_count_reply)
             ltac:(vm_compute; reflexivity)).
  vm_compute. reflexivity.
Defined.

Lemma get_device_id_layout_witness :
  _get_device_id {| dev_written := []; dev_traces := [ok_trace sample_id_reply] |}
  = Ok (4660, {| dev_written := [[x02; x02; x80; xd3; x00; x00; x00; x00]]; dev_traces := [] |}).
Proof.
  rewrite (get_device_id_layout [] (ok_trace sample_id_reply) [] (Some sample_id_reply)
             ltac:(vm_compute; reflexivity)).
  vm_compute. reflexivity.
Defined.

Lemma get_device_id_range_witness : 0 <= 4660 < 2 ^ 96.
Proof.
  apply (get_device_id_range {| dev_written := []; dev_traces := [ok_trace sample_id_reply] |}
           4660 {| dev_written := [[x02; x02; x80; xd3; x00; x00; x00; x00]]; dev_traces := [] |}).
  vm_compute. reflexivity.
Defined.

Lemma version_properties_one_query_witness :
  (pid ← PegasusDevice_product_id; ver ← PegasusDevice_version;
   pv ← PegasusDevice_pad_version; m ← PegasusDevice_mode; mret (pid, ver, pv, m))
    {| self := PegasusDevice_init {| dev_written := [];
                                     dev_traces := [ok_trace sample_version_reply] |};
       stdout := [] |} =
  Ok ((Some 1, Some 2, Some 3, Some 1),
      {| self := {| _f := {| dev_written := [[x02; x02; x95; x95; x00; x00; x00; x00]];
                             dev_traces := [] |};
                    pd_product_id := Some 1; pd_version := Some 2; pd_pad_version := Some 3;
                    pd_mode := Some 1; pd_device_id := None |};
         stdout := [] |}).
Proof.
  apply (version_properties_one_query
           {| self := PegasusDevice_init {| dev_written := [];
                                            dev_traces := [ok_trace sample_version_reply] |};
              stdout := [] |}
           {| _product_id := 1; _version := 2; _pad_version := 3; _mode := 1 |}
           {| dev_written := [[x02; x02; x95; x95; x00; x00; x00; x00]]; dev_traces := [] |});
    vm_compute; reflexivity.
Defined.

Lemma device_id_cached_witness :
  (a ← PegasusDevice_device_id; b ← PegasusDevice_device_id; mret (a, b))
    {| self := PegasusDevice_init {| dev_written := [];
                                     dev_traces := [ok_trace sample_id_reply] |};
       stdout := [] |} =
  Ok ((Some 4660, Some 4660),
      {| self := {| _f := {| dev_written := [[x02; x02; x80; xd3; x00; x00; x00; x00]];
                             dev_traces := [] |};
                    pd_product_id := None; pd_version := None; pd_pad_version := None;
                    pd_mode := None; pd_device_id := Some 4660 |};
         stdout := [] |}).
Proof.
  apply (device_id_cached
           {| self := PegasusDevice_init {| dev_written := [];
                                            dev_traces := [ok_trace sample_id_reply] |};
              stdout := [] |}
           4660
           {| dev_written := [[x02; x02; x80; xd3; x00; x00; x00; x00]]; dev_traces := [] |});
    vm_compute; reflexivity.
Defined.

Lemma print_info_twice_witness :
  (_ ← PegasusDevice_print_info; PegasusDevice_print_info)
    {| self := PegasusDevice_init
                 {| dev_written := [];
                    dev_traces := [ok_trace sample_version_reply; ok_trace sample_id_reply;
                                   ok_trace sample_count_reply; ok_trace sample_count_reply] |};
       stdout := [] |} =
  Ok (tt, {| self := {| _f := {| dev_written := [[x02; x02; x95; x95; x00; x00; x00; x00];
                                                 [x02; x02; x80; xd3; x00; x00; x00; x00];
                                                 [x02; x02; x80; xc0; x00; x00; x00; x00];
                                                 [x02; x02; x80; xc0; x00; x00; x00; x00]];
                                 dev_traces := [] |};
                        pd_product_id := Some 1; pd_version := Some 2; pd_pad_version := Some 3;
                        pd_mode := Some 1; pd_device_id := Some 4660 |};
             stdout := []
               ++ info_lines {| _product_id := 1; _version := 2; _pad_version := 3; _mode := 1 |}
                    4660 5
               ++ info_lines {| _product_id := 1; _version := 2; _pad_version := 3; _mode := 1 |}
                    4660 5 |}).
Proof.
  apply (print_info_twice
    {| self := PegasusDevice_init
                 {| dev_written := [];
                    dev_traces := [ok_trace sample_version_reply; ok_trace sample_id_reply;
                                   ok_trace sample_count_reply; ok_trace sample_count_reply] |};
       stdout := [] |}
    {| dev_written := [];
       dev_traces := [ok_trace sample_version_reply; ok_trace sample_id_reply;
                      ok_trace sample_count_reply; ok_trace sample_count_reply] |}
    {| _product_id := 1; _version := 2; _pad_version := 3; _mode := 1 |}
    {| dev_written := [[x02; x02; x95; x95; x00; x00; x00; x00]];
       dev_traces := [ok_trace sample_id_reply; ok_trace sample_count_reply;
                      ok_trace sample_count_reply] |}
    4660
    {| dev_written := [[x02; x02; x95; x95; x00; x00; x00; x00];
                       [x02; x02; x80; xd3; x00; x00; x00; x00]];
       dev_traces := [ok_trace sample_count_reply; ok_trace sample_count_reply] |}
    5
    {| dev_written := [[x02; x02; x95; x95; x00; x00; x00; x00];
                       [x02; x02; x80; xd3; x00; x00; x00; x00];
                       [x02; x02; x80; xc0; x00; x00; x00; x00]];
       dev_traces := [ok_trace sample_count_reply] |}
    5
    {| dev_written := [[x02; x02; x95; x95; x00; x00; x00; x00];
                       [x02; x02; x80; xd3; x00; x00; x00; x00];
                       [x02; x02; x80; xc0; x00; x00; x00; x00];
                       [x02; x02; x80; xc0; x00; x00; x00; x00]];
       dev_traces := [] |}); vm_compute; reflexivity.
Defined.

Lemma download_data_empty_or_silent_witness :
  download_data {| dev_written := []; dev_traces := [[(3, RData [])]] |} = Raise TypeError /\
  download_data {| dev_written := [];
                   dev_traces := [ok_trace (download_reply 0 (replicate 55 x00))] |}
  = Ok ([], {| dev_written := [] ++ [cmd_frame [xb5]; cmd_frame [xb6]; cmd_frame [xb6]];
               dev_traces := [] |}).
Proof.
  split.
  - apply (proj1 (download_data_empty_or_silent [] [(3, RData [])] [] None
                    ltac:(vm_compute; reflexivity))). reflexivity.
  - apply (proj2 (download_data_empty_or_silent [] (ok_trace (download_reply 0 (replicate 55 x00)))
                    [] (Some (download_reply 0 (replicate 55 x00))) ltac:(vm_compute; reflexivity))
             (download_reply 0 (replicate 55 x00))); vm_compute; reflexivity.
Defined.

Lemma PegasusFile_dump_round_trip_witness :
  PegasusFile_init (path_join (lit "output") (bin_file_name (fun _ => lit "2024") 4660)) [x01]
  = Ok {| pf_data := [x01]; pf_device_id := 4660 |}.
Proof.
  apply (PegasusFile_dump_round_trip (fun _ => lit "2024") (lit "output") 4660 [x01]).
  - intros d _. apply (bool_decide_unpack _). vm_compute. reflexivity.
  - apply (bool_decide_unpack _). vm_compute. reflexivity.
  - lia.
Defined.

Lemma PegasusFile_init_no_dash_witness :
  PegasusFile_init (lit "/dev/irisnotes") [] = Raise IndexError.
Proof.
  apply (PegasusFile_init_no_dash (lit "/dev/irisnotes") []).
  apply (bool_decide_unpack _). vm_compute. reflexivity.
Defined.

Lemma main_export_written_notes_witness :
  exists written,
    main_export (fun bs => Z.of_nat (length bs)) (fun _ _ => lit "2024") (lit "output")
      [lit "20240101-03-abc.svg"] sample_note_buffer = Ok written /\
    map snd written = filter (fun n => hexdigest (_hash n) ∉ [lit "abc"])
                        (map (built_note (fun bs => Z.of_nat (length bs))) sample_records).
Proof.
  apply (main_export_written_notes (fun bs => Z.of_nat (length bs)) (fun _ _ => lit "2024")
           (lit "output") [lit "20240101-03-abc.svg"] sample_note_buffer [lit "abc"]
           (map (built_note (fun bs => Z.of_nat (length bs))) sample_records));
    vm_compute; reflexivity.
Defined.

Lemma main_export_rerun_witness :
  main_export (fun bs => Z.of_nat (length bs)) (fun _ _ => lit "2025") (lit "output")
    ([] ++ map fst (export_notes (fun _ _ => lit "2024") 0 []
                      (map (built_note (fun bs => Z.of_nat (length bs))) sample_records)))
    sample_note_buffer = Ok [].
Proof.
  apply (main_export_rerun (fun bs => Z.of_nat (length bs)) (fun _ _ => lit "2024")
           (fun _ _ => lit "2025") (lit "output") [] sample_note_buffer []
           (map (built_note (fun bs => Z.of_nat (length bs))) sample_records)).
  - intros bs. lia.
  - intros k d _. apply (bool_decide_unpack _). vm_compute. reflexivity.
  - reflexivity.
  - vm_compute. reflexivity.
Defined.

Lemma main_export_foreign_svg_witness :
  main_export (fun _ => 0) (fun _ _ => lit "2024") (lit "output")
    ([] ++ lit "notes.svg" :: []) [x00; x00; x00] = Raise IndexError.
Proof.
  apply (main_export_foreign_svg (fun _ => 0) (fun _ _ => lit "2024") (lit "output") []
           (lit "notes.svg") [] [x00; x00; x00] [] (lit "notes") (lit "svg")).
  - reflexivity.
  - reflexivity.
  - apply (bool_decide_unpack _). vm_compute. reflexivity.
  - reflexivity.
  - vm_compute. lia.
Defined.

